(** * BMP280 pressure / temperature sensor driver (bmp280.h)

    A shallow embedding of the [BMP280] class: its data members become a
    record, the fixed-point compensation routines become functions on that
    record, and the I2C acquisition routines become state-passing functions
    over the driver record and a model of the bus.

    Conventions.
    - Every C integer is a [Z]; a conversion to a fixed-width type is the
      function named after that type ([int32_t], [int64_t], ...), which
      wraps around in two's complement.  Arithmetic on [int32_t] / [int64_t]
      operands is the mathematical operation followed by that wrap.
    - [>>] on a signed operand is the arithmetic shift ([Z.shiftr]), as the
      ARM targets of the firmware compile it.
    - [/] on [int64_t] truncates towards zero ([Z.quot]); it has no result
      for a zero divisor, nor for -2^63 divided by -1, whose quotient is
      not an [int64_t].
    - [int] is 32 bits wide and objects are laid out least significant byte
      first, as on those targets ([ReadCalib] relies on the same layout when
      it reads the calibration words straight into the members).
    - [I2C_Read], [I2C_Write] (i2c.h) and [vTaskDelay] are not part of the
      file: the bus is a script of answers, one per transaction, and every
      transaction and delay is recorded in a trace.

    Embedded: [DefaultCalib], [CheckID], [ReadCalib], [ReadBusy],
    [WaitReady], [Trigger], [ReadRawPress], [ReadRawTemp],
    [CalcTemperature], [CalcPressure].
    [Acquire] is left out: as written it names [ReadRawPree] and tests the
    member function [Trigger] instead of calling it. *)

From Stdlib Require Import ZArith Lia List Bool.
From Stdlib.Strings Require Import Byte.
Import ListNotations.
Local Open Scope Z_scope.

(** ** Fixed-width integers *)

Module Int.

Definition wrap_unsigned (w z : Z) : Z := z mod 2 ^ w.

Definition wrap_signed (w z : Z) : Z :=
  (z + 2 ^ (w - 1)) mod 2 ^ w - 2 ^ (w - 1).

Definition uint8_t  : Z -> Z := wrap_unsigned 8.
Definition uint16_t : Z -> Z := wrap_unsigned 16.
Definition uint32_t : Z -> Z := wrap_unsigned 32.
Definition int16_t  : Z -> Z := wrap_signed 16.
Definition int32_t  : Z -> Z := wrap_signed 32.
Definition int64_t  : Z -> Z := wrap_signed 64.

Definition in_int32 (z : Z) : Prop := - 2 ^ 31 <= z < 2 ^ 31.

(** 32-bit signed operators *)
Definition add32 (a b : Z) : Z := int32_t (a + b).
Definition sub32 (a b : Z) : Z := int32_t (a - b).
Definition mul32 (a b : Z) : Z := int32_t (a * b).
Definition shl32 (a n : Z) : Z := int32_t (Z.shiftl a n).

(** 64-bit signed operators *)
Definition add64 (a b : Z) : Z := int64_t (a + b).
Definition sub64 (a b : Z) : Z := int64_t (a - b).
Definition mul64 (a b : Z) : Z := int64_t (a * b).
Definition shl64 (a n : Z) : Z := int64_t (Z.shiftl a n).

(** Arithmetic right shift: the result of shifting an in-range value is in
    range, so no wrap is needed. *)
Definition shr (a n : Z) : Z := Z.shiftr a n.

(** 64-bit signed division.  A zero divisor has no result, and neither has
    -2^63 divided by -1: the quotient 2^63 is not an [int64_t]. *)
Definition div64 (a b : Z) : option Z :=
  if b =? 0 then None
  else if (a =? - 2 ^ 63) && (b =? -1) then None
  else Some (int64_t (Z.quot a b)).

(** The division as the program runs it: the divisor it divided by, and the
    quotient if there is one. *)
Definition div64_logged (a b : Z) : list Z * option Z := ([b], div64 a b).

End Int.
Import Int.

(** ** The driver object *)

(** The data members of [class BMP280], in declaration order.  [T1] and [P1]
    are [uint16_t], the other calibration words are [int16_t]; [Error] is
    [uint8_t]; [RawTemp], [FineTemp], [RawPress] are [int32_t];
    [Temperature] is [int16_t]; [Pressure] is [uint32_t]. *)
Record BMP280 : Type := mkBMP280 {
  T1 : Z; T2 : Z; T3 : Z;
  P1 : Z; P2 : Z; P3 : Z; P4 : Z; P5 : Z; P6 : Z; P7 : Z; P8 : Z; P9 : Z;
  D : Z;
  Error : Z;
  RawTemp : Z;
  FineTemp : Z;
  Temperature : Z;
  RawPress : Z;
  Pressure : Z
}.

Definition set_Error (v : Z) (s : BMP280) : BMP280 :=
  mkBMP280 (T1 s) (T2 s) (T3 s) (P1 s) (P2 s) (P3 s) (P4 s) (P5 s) (P6 s)
           (P7 s) (P8 s) (P9 s) (D s)
           v (RawTemp s) (FineTemp s) (Temperature s) (RawPress s) (Pressure s).

Definition set_RawTemp (v : Z) (s : BMP280) : BMP280 :=
  mkBMP280 (T1 s) (T2 s) (T3 s) (P1 s) (P2 s) (P3 s) (P4 s) (P5 s) (P6 s)
           (P7 s) (P8 s) (P9 s) (D s)
           (Error s) v (FineTemp s) (Temperature s) (RawPress s) (Pressure s).

Definition set_FineTemp (v : Z) (s : BMP280) : BMP280 :=
  mkBMP280 (T1 s) (T2 s) (T3 s) (P1 s) (P2 s) (P3 s) (P4 s) (P5 s) (P6 s)
           (P7 s) (P8 s) (P9 s) (D s)
           (Error s) (RawTemp s) v (Temperature s) (RawPress s) (Pressure s).

Definition set_Temperature (v : Z) (s : BMP280) : BMP280 :=
  mkBMP280 (T1 s) (T2 s) (T3 s) (P1 s) (P2 s) (P3 s) (P4 s) (P5 s) (P6 s)
           (P7 s) (P8 s) (P9 s) (D s)
           (Error s) (RawTemp s) (FineTemp s) v (RawPress s) (Pressure s).

Definition set_RawPress (v : Z) (s : BMP280) : BMP280 :=
  mkBMP280 (T1 s) (T2 s) (T3 s) (P1 s) (P2 s) (P3 s) (P4 s) (P5 s) (P6 s)
           (P7 s) (P8 s) (P9 s) (D s)
           (Error s) (RawTemp s) (FineTemp s) (Temperature s) v (Pressure s).

Definition set_Pressure (v : Z) (s : BMP280) : BMP280 :=
  mkBMP280 (T1 s) (T2 s) (T3 s) (P1 s) (P2 s) (P3 s) (P4 s) (P5 s) (P6 s)
           (P7 s) (P8 s) (P9 s) (D s)
           (Error s) (RawTemp s) (FineTemp s) (Temperature s) (RawPress s) v.

(** [DefaultCalib]: overwrite the thirteen calibration words with the default
    constants; every other member is left as it is. *)
Definition DefaultCalib (s : BMP280) : BMP280 :=
  mkBMP280 27504 26435 (-1000)
           36477 (-10685) 3024 2855 140 (-7) 15500 (-14600) 6000
           0
           (Error s) (RawTemp s) (FineTemp s) (Temperature s) (RawPress s)
           (Pressure s).

(** ** Compensation *)

(** [CalcTemperature]: [FineTemp = var1 + var2] and
    [Temperature = ((var1 + var2) + 256) >> 9], the latter converted to the
    [int16_t] member on assignment. *)
Definition CalcTemperature (s : BMP280) : BMP280 :=
  let var1 :=
    shr (mul32 (sub32 (shr (RawTemp s) 3) (shl32 (int32_t (T1 s)) 1))
               (int32_t (T2 s)))
        11 in
  let var2 :=
    shr (mul32 (shr (mul32 (sub32 (shr (RawTemp s) 4) (int32_t (T1 s)))
                           (sub32 (shr (RawTemp s) 4) (int32_t (T1 s))))
                    12)
               (int32_t (T3 s)))
        14 in
  let s := set_FineTemp (add32 var1 var2) s in
  set_Temperature (int16_t (shr (add32 (add32 var1 var2) 256) 9)) s.

(** The statements of [CalcPressure] after the division, given its quotient. *)
Definition CalcPressure_tail (s : BMP280) (p : Z) : BMP280 :=
  let var1 := shr (mul64 (mul64 (int64_t (P9 s)) (shr p 13)) (shr p 13)) 25 in
  let var2 := shr (mul64 (int64_t (P8 s)) p) 19 in
  let p := add64 (shr (add64 (add64 p var1) var2) 8)
                 (shl64 (int64_t (P7 s)) 4) in
  set_Pressure (uint32_t (shr (add64 p 32) 6)) s.

(** [CalcPressure].  The first component lists the divisors of the divisions
    the call executes, in order, as the division itself reports them; the
    second is the object afterwards, or [None] when a division had no
    result.  [1048576 - RawPress] is an [int] subtraction, widened
    afterwards. *)
Definition CalcPressure (s : BMP280) : list Z * option BMP280 :=
  let var1 := sub64 (int64_t (FineTemp s)) 128000 in
  let var2 := mul64 (mul64 var1 var1) (int64_t (P6 s)) in
  let var2 := add64 var2 (shl64 (mul64 var1 (int64_t (P5 s))) 17) in
  let var2 := add64 var2 (shl64 (int64_t (P4 s)) 35) in
  let var1 := add64 (shr (mul64 (mul64 var1 var1) (int64_t (P3 s))) 8)
                    (shl64 (mul64 var1 (int64_t (P2 s))) 12) in
  let var1 :=
    shr (mul64 (add64 (shl64 (int64_t 1) 47) var1) (int64_t (P1 s))) 33 in
  if var1 =? 0 then ([], Some (set_Pressure 0 s))
  else
    let p := int64_t (sub32 1048576 (RawPress s)) in
    let '(divisors, p) :=
      div64_logged (mul64 (sub64 (shl64 p 31) var2) 3125) var1 in
    (divisors, option_map (CalcPressure_tail s) p).

(** One reading cycle of the compensation: temperature first, then pressure. *)
Definition Compensate (s : BMP280) : option BMP280 :=
  snd (CalcPressure (CalcTemperature s)).

(** ** The I2C bus and the scheduler delay *)

Module Bus.

(** What the driver asks of its environment, in the order it asks. *)
Inductive event : Type :=
| Read (addr reg : Z) (len : nat)
| Write (addr reg val : Z)
| Delay (ticks : Z).

(** The answer of the transport to one transaction: its [uint8_t] return
    code (0 = no error) and, for a read, the bytes it stored into the
    caller's buffer. *)
Record reply : Type := mkReply { err : byte; data : list byte }.

(** The environment: the answers the transport gives, by transaction number,
    the number of transactions served so far, and the events so far. *)
Record world : Type := mkWorld {
  script : nat -> reply;
  served : nat;
  trace : list event
}.

Definition boot (sc : nat -> reply) : world := mkWorld sc 0 [].

Definition next_reply (w : world) : reply := script w (served w).

Definition byte_val (b : byte) : Z := Z.of_N (Byte.to_N b).

(** [I2C_Read]: at most [len] bytes reach the buffer. *)
Definition I2C_Read (w : world) (addr reg : Z) (len : nat)
  : Z * list byte * world :=
  let r := next_reply w in
  (byte_val (err r), firstn len (data r),
   mkWorld (script w) (S (served w)) (trace w ++ [Read addr reg len])).

Definition I2C_Write (w : world) (addr reg val : Z) : Z * world :=
  let r := next_reply w in
  (byte_val (err r),
   mkWorld (script w) (S (served w)) (trace w ++ [Write addr reg val])).

Definition vTaskDelay (w : world) (ticks : Z) : world :=
  mkWorld (script w) (served w) (trace w ++ [Delay ticks]).

(** The value of a byte sequence laid out least significant byte first, as
    the little-endian targets of the firmware lay out an integer. *)
Fixpoint le_value (bs : list byte) : Z :=
  match bs with
  | [] => 0
  | b :: bs' => byte_val b + 256 * le_value bs'
  end.

(** Storing [bs] at the start of an object whose bytes read [old] as an
    unsigned integer: the low bytes are replaced, the others stay. *)
Definition poke (old : Z) (bs : list byte) : Z :=
  let k := 8 * Z.of_nat (length bs) in
  le_value bs + 2 ^ k * (old / 2 ^ k).

End Bus.
Import Bus.

(** ** Acquisition *)

Definition ADDR : Z := 0x77.
Definition REG_CALIB : Z := 0x88.
Definition REG_ID : Z := 0xD0.
Definition REG_RESET : Z := 0xE0.
Definition REG_STATUS : Z := 0xF3.
Definition REG_CTRL : Z := 0xF4.
Definition REG_CONFIG : Z := 0xF5.
Definition REG_PRESS : Z := 0xF7.
Definition REG_TEMP : Z := 0xFA.

(** A member function that talks to the bus: from the object and the
    environment to its return value, the object and the environment. *)
Definition method : Type := BMP280 * world -> Z * BMP280 * world.

(** The three components of what a member function leaves. *)
Definition ret (x : Z * BMP280 * world) : Z := fst (fst x).
Definition obj (x : Z * BMP280 * world) : BMP280 := snd (fst x).
Definition env (x : Z * BMP280 * world) : world := snd x.

(** [ReadBusy].  The local [Status] is not initialised by the source; it is
    taken as 0 before the transfer, which shows only if the transport
    reports success without storing a byte. *)
Definition ReadBusy : method := fun '(s, w) =>
  let '(e, bs, w) := I2C_Read w ADDR REG_STATUS 1 in
  let Status := uint8_t (poke 0 bs) in
  let s := set_Error e s in
  if negb (Error s =? 0) then (Error s, s, w)
  else (if Z.land Status 0x09 =? 0 then 1 else 0, s, w).

(** The [for(; Timeout; Timeout--)] loop of [WaitReady], by the value of
    [Timeout] on entry. *)
Fixpoint WaitReady_loop (Timeout : nat) (sw : BMP280 * world)
  : Z * BMP280 * world :=
  match Timeout with
  | O => (0xFF, fst sw, snd sw)
  | S Timeout' =>
      let '(Err, s, w) := ReadBusy sw in
      if 1 <? Err then (Err, s, w)
      else if Err =? 0 then (0, s, w)
      else WaitReady_loop Timeout' (s, vTaskDelay w 1)
  end.

(** [WaitReady(Timeout, Wait)]; both parameters are [uint8_t]. *)
Definition WaitReady (Timeout Wait : Z) : method := fun '(s, w) =>
  let w := vTaskDelay w (uint8_t Wait) in
  WaitReady_loop (Z.to_nat (uint8_t Timeout)) (s, w).

(** [WaitReady()] with its default arguments. *)
Definition WaitReady_default : method := WaitReady 20 30.

Definition Trigger : method := fun '(s, w) =>
  let '(e, w) := I2C_Write w ADDR REG_CONFIG 0x00 in
  let s := set_Error e s in
  if negb (Error s =? 0) then (Error s, s, w)
  else
    let '(e, w) := I2C_Write w ADDR REG_CTRL 0x55 in
    let s := set_Error e s in
    (Error s, s, w).

Definition ReadRawPress : method := fun '(s, w) =>
  let s := set_RawPress 0 s in
  let '(e, bs, w) := I2C_Read w ADDR REG_PRESS 3 in
  let s := set_RawPress (int32_t (poke (uint32_t (RawPress s)) bs)) s in
  let s := set_Error e s in
  if negb (Error s =? 0) then (Error s, s, w)
  else
    let s :=
      set_RawPress
        (Z.lor (Z.lor (Z.land (shl32 (RawPress s) 16) 0xFF0000)
                      (Z.land (RawPress s) 0x00FF00))
               (Z.land (shr (RawPress s) 16) 0x0000FF)) s in
    let s := set_RawPress (shr (RawPress s) 4) s in
    (0, s, w).

Definition ReadRawTemp : method := fun '(s, w) =>
  let s := set_RawTemp 0 s in
  let '(e, bs, w) := I2C_Read w ADDR REG_TEMP 3 in
  let s := set_RawTemp (int32_t (poke (uint32_t (RawTemp s)) bs)) s in
  let s := set_Error e s in
  if negb (Error s =? 0) then (Error s, s, w)
  else
    let s :=
      set_RawTemp
        (Z.lor (Z.lor (Z.land (shl32 (RawTemp s) 16) 0xFF0000)
                      (Z.land (RawTemp s) 0x00FF00))
               (Z.land (shr (RawTemp s) 16) 0x0000FF)) s in
    let s := set_RawTemp (shr (RawTemp s) 4) s in
    (0, s, w).

(** [CheckID].  The local [ID] is not initialised by the source; it is
    taken as 0 before the transfer, as [Status] is in [ReadBusy]. *)
Definition CheckID : method := fun '(s, w) =>
  let '(e, bs, w) := I2C_Read w ADDR REG_ID 1 in
  let ID := uint8_t (poke 0 bs) in
  let s := set_Error e s in
  if negb (Error s =? 0) then (Error s, s, w)
  else (if negb (ID =? 0x58) then 1 else 0, s, w).

(** The bytes that land in 16-bit word number [k] of a buffer of words. *)
Definition chunk (k : nat) (bs : list byte) : list byte :=
  firstn 2 (skipn (2 * k) bs).

(** A [uint16_t] / [int16_t] member after bytes were stored at its start. *)
Definition store_u16 (old : Z) (c : list byte) : Z :=
  uint16_t (poke (uint16_t old) c).
Definition store_s16 (old : Z) (c : list byte) : Z :=
  int16_t (poke (uint16_t old) c).

(** [ReadCalib]: 26 bytes are read to the address of [T1]; the thirteen
    16-bit calibration members follow each other in memory in declaration
    order, so word [k] of the burst lands in member number [k]. *)
Definition ReadCalib : method := fun '(s, w) =>
  let '(e, bs, w) := I2C_Read w ADDR REG_CALIB 26 in
  let s :=
    mkBMP280 (store_u16 (T1 s) (chunk 0 bs))
             (store_s16 (T2 s) (chunk 1 bs))
             (store_s16 (T3 s) (chunk 2 bs))
             (store_u16 (P1 s) (chunk 3 bs))
             (store_s16 (P2 s) (chunk 4 bs))
             (store_s16 (P3 s) (chunk 5 bs))
             (store_s16 (P4 s) (chunk 6 bs))
             (store_s16 (P5 s) (chunk 7 bs))
             (store_s16 (P6 s) (chunk 8 bs))
             (store_s16 (P7 s) (chunk 9 bs))
             (store_s16 (P8 s) (chunk 10 bs))
             (store_s16 (P9 s) (chunk 11 bs))
             (store_s16 (D s) (chunk 12 bs))
             (Error s) (RawTemp s) (FineTemp s) (Temperature s) (RawPress s)
             (Pressure s) in
  let s := set_Error e s in
  (Error s, s, w).

(** ** Reference formulas, as the specification words them *)

Module Vendor.

(** The temperature formula in 32-bit arithmetic. *)
Definition var1 (dig_T1 dig_T2 adc_T : Z) : Z :=
  shr (mul32 (sub32 (shr adc_T 3) (shl32 dig_T1 1)) dig_T2) 11.

Definition var2 (dig_T1 dig_T3 adc_T : Z) : Z :=
  shr (mul32 (shr (mul32 (sub32 (shr adc_T 4) dig_T1)
                         (sub32 (shr adc_T 4) dig_T1)) 12) dig_T3) 14.

Definition t_fine (dig_T1 dig_T2 dig_T3 adc_T : Z) : Z :=
  add32 (var1 dig_T1 dig_T2 adc_T) (var2 dig_T1 dig_T3 adc_T).

(** The same formula over the integers, with no wrap anywhere. *)
Definition exact_t_fine (dig_T1 dig_T2 dig_T3 adc_T : Z) : Z :=
  Z.shiftr ((Z.shiftr adc_T 3 - Z.shiftl dig_T1 1) * dig_T2) 11
  + Z.shiftr
      (Z.shiftr ((Z.shiftr adc_T 4 - dig_T1) * (Z.shiftr adc_T 4 - dig_T1)) 12
       * dig_T3) 14.

(** Temperature in 0.1 degC from the fine temperature. *)
Definition temperature (fine : Z) : Z := Z.shiftr (fine + 256) 9.

(** A 3-byte big-endian burst as a 24-bit value, shifted right by 4. *)
Definition decode (b0 b1 b2 : Z) : Z :=
  Z.shiftr (Z.lor (Z.lor (Z.shiftl b0 16) (Z.shiftl b1 8)) b2) 4.

End Vendor.

(** The thirteen calibration words of an object. *)
Definition Calibration (s : BMP280) : list Z :=
  [T1 s; T2 s; T3 s; P1 s; P2 s; P3 s; P4 s; P5 s; P6 s; P7 s; P8 s; P9 s;
   D s].

(** The value [var1] holds when [CalcPressure] tests it against zero. *)
Definition CalcPressure_var1 (s : BMP280) : Z :=
  let var1 := sub64 (int64_t (FineTemp s)) 128000 in
  let var1 := add64 (shr (mul64 (mul64 var1 var1) (int64_t (P3 s))) 8)
                    (shl64 (mul64 var1 (int64_t (P2 s))) 12) in
  shr (mul64 (add64 (shl64 (int64_t 1) 47) var1) (int64_t (P1 s))) 33.

(** The compensated reading of an object. *)
Definition readings (s : BMP280) : Z * Z * Z :=
  (Temperature s, FineTemp s, Pressure s).

(** What [ReadBusy] returns, from the answer of the transport. *)
Definition ReadBusy_code (r : reply) : Z :=
  if negb (byte_val (err r) =? 0) then byte_val (err r)
  else if Z.land (uint8_t (poke 0 (firstn 1 (data r)))) 0x09 =? 0 then 1
       else 0.

(** The environment after one more status read. *)
Definition polled (w : world) : world :=
  mkWorld (script w) (S (served w)) (trace w ++ [Read ADDR REG_STATUS 1]).

(** The events of [n] polls that each go on to the next. *)
Definition poll_rounds (n : nat) : list event :=
  concat (repeat [Read ADDR REG_STATUS 1; Delay 1] n).

(** The number of status reads among some events. *)
Fixpoint polls (tr : list event) : nat :=
  match tr with
  | [] => 0
  | Read _ reg _ :: tr' => (if reg =? REG_STATUS then 1 else 0) + polls tr'
  | _ :: tr' => polls tr'
  end.

(** The value [var2] holds when [CalcPressure] divides. *)
Definition CalcPressure_var2 (s : BMP280) : Z :=
  let var1 := sub64 (int64_t (FineTemp s)) 128000 in
  let var2 := mul64 (mul64 var1 var1) (int64_t (P6 s)) in
  let var2 := add64 var2 (shl64 (mul64 var1 (int64_t (P5 s))) 17) in
  add64 var2 (shl64 (int64_t (P4 s)) 35).

(** The dividend of the division of [CalcPressure]. *)
Definition CalcPressure_dividend (s : BMP280) : Z :=
  mul64 (sub64 (shl64 (int64_t (sub32 1048576 (RawPress s))) 31)
               (CalcPressure_var2 s)) 3125.

(** The one case in which a division by a non-zero [var1] has no result. *)
Definition quotient_overflows (s : BMP280) : Prop :=
  CalcPressure_dividend s = - 2 ^ 63 /\ CalcPressure_var1 s = -1.

(** The pressure formula over the integers, with no wrap anywhere. *)
Definition exact_pressure (s : BMP280) : Z :=
  let t := FineTemp s - 128000 in
  let var2 := t * t * P6 s + t * P5 s * 2 ^ 17 + P4 s * 2 ^ 35 in
  let var1 :=
    (2 ^ 47 + (t * t * P3 s / 2 ^ 8 + t * P2 s * 2 ^ 12)) * P1 s / 2 ^ 33 in
  let p := 1048576 - RawPress s in
  let p := Z.quot ((p * 2 ^ 31 - var2) * 3125) var1 in
  let v1 := P9 s * (p / 2 ^ 13) * (p / 2 ^ 13) / 2 ^ 25 in
  let v2 := P8 s * p / 2 ^ 19 in
  ((p + v1 + v2) / 2 ^ 8 + P7 s * 2 ^ 4 + 32) / 2 ^ 6.

(** The ticks spent in delays among some events. *)
Fixpoint delays (tr : list event) : Z :=
  match tr with
  | [] => 0
  | Delay t :: tr' => t + delays tr'
  | _ :: tr' => delays tr'
  end.

(** The bus writes among some events. *)
Fixpoint writes (tr : list event) : list (Z * Z) :=
  match tr with
  | [] => []
  | Write _ reg val :: tr' => (reg, val) :: writes tr'
  | _ :: tr' => writes tr'
  end.

(** The byte with a given value (taken modulo 256). *)
Definition byte_of (z : Z) : byte :=
  match Byte.of_N (Z.to_N (z mod 256)) with
  | Some b => b
  | None => x00
  end.

(** A 16-bit word as the device sends it, low byte first, and a list of
    words as one burst. *)
Definition le16 (v : Z) : list byte := [byte_of v; byte_of (v / 256)].
Definition burst_of (words : list Z) : list byte := flat_map le16 words.

(** The 16-bit word at position [k] of a burst, read without and with
    sign. *)
Definition word_at (k : nat) (bs : list byte) : Z :=
  byte_val (nth (2 * k) bs x00) + 256 * byte_val (nth (2 * k + 1) bs x00).
Definition sword_at (k : nat) (bs : list byte) : Z := int16_t (word_at k bs).

(** The words of a calibration set fit their member types. *)
Definition Calibration_typed (s : BMP280) : Prop :=
  0 <= T1 s < 2 ^ 16 /\ 0 <= P1 s < 2 ^ 16
  /\ Forall (fun v => - 2 ^ 15 <= v < 2 ^ 15)
            [T2 s; T3 s; P2 s; P3 s; P4 s; P5 s; P6 s; P7 s; P8 s; P9 s; D s].

(** The raw samples a converter can deliver: 20 bits. *)
Definition raw_20_bit (v : Z) : Prop := 0 <= v < 2 ^ 20.

Definition blank : BMP280 := mkBMP280 0 0 0 0 0 0 0 0 0 0 0 0 0 0 0 0 0 0 0.

(** A transaction answered without error, delivering the given bytes. *)
Definition ok (bs : list byte) : reply := mkReply x00 bs.

(** A transaction that fails with the given code and delivers [bs]. *)
Definition failing (code : byte) (bs : list byte) : reply := mkReply code bs.

(** * Properties *)

(** ** Fixed-width integers *)

Lemma pow2_double (w : Z) : 0 < w -> 2 ^ w = 2 * 2 ^ (w - 1).
Proof.
  intros Hw. replace w with (Z.succ (w - 1)) at 1 by lia.
  rewrite Z.pow_succ_r by lia. reflexivity.
Qed.

Lemma wrap_signed_range (w z : Z) :
  0 < w -> - 2 ^ (w - 1) <= wrap_signed w z < 2 ^ (w - 1).
Proof.
  intros Hw. unfold wrap_signed.
  pose proof (pow2_double w Hw) as E.
  assert (0 < 2 ^ (w - 1)) by (apply Z.pow_pos_nonneg; lia).
  pose proof (Z.mod_pos_bound (z + 2 ^ (w - 1)) (2 ^ w)). lia.
Qed.

Lemma wrap_signed_small (w z : Z) :
  0 < w -> - 2 ^ (w - 1) <= z < 2 ^ (w - 1) -> wrap_signed w z = z.
Proof.
  intros Hw Hz. unfold wrap_signed.
  pose proof (pow2_double w Hw) as E.
  rewrite Z.mod_small; lia.
Qed.

Lemma int32_t_range (z : Z) : in_int32 (int32_t z).
Proof. apply (wrap_signed_range 32); lia. Qed.

Lemma int32_t_small (z : Z) : in_int32 z -> int32_t z = z.
Proof. intros H. apply (wrap_signed_small 32); [lia | exact H]. Qed.

Lemma int16_t_small (z : Z) : - 2 ^ 15 <= z < 2 ^ 15 -> int16_t z = z.
Proof. intros H. apply (wrap_signed_small 16); [lia | exact H]. Qed.

Lemma int64_t_small (z : Z) : - 2 ^ 63 <= z < 2 ^ 63 -> int64_t z = z.
Proof. intros H. apply (wrap_signed_small 64); [lia | exact H]. Qed.

Lemma shr_div (a n : Z) : 0 <= n -> shr a n = a / 2 ^ n.
Proof. intros Hn. unfold shr. apply Z.shiftr_div_pow2, Hn. Qed.

(** ** Temperature compensation *)

Section DefaultTemperature.

Variable adc : Z.

Let v1 := Vendor.var1 27504 26435 adc.
Let v2 := Vendor.var2 27504 (-1000) adc.

Lemma default_var1_bound : - 2 ^ 20 <= v1 < 2 ^ 20.
Proof.
  subst v1. unfold Vendor.var1. rewrite shr_div by lia.
  pose proof (int32_t_range
                ((sub32 (shr adc 3) (shl32 27504 1)) * 26435)) as H.
  unfold in_int32 in H.
  fold (mul32 (sub32 (shr adc 3) (shl32 27504 1)) 26435) in H.
  change (2 ^ 11) with 2048.
  Z.div_mod_to_equations. lia.
Qed.

Lemma default_var2_bound : - 32000 <= v2 <= 32000.
Proof.
  subst v2. unfold Vendor.var2.
  set (sq := mul32 (sub32 _ _) (sub32 _ _)).
  assert (Hsq : in_int32 sq) by apply int32_t_range.
  assert (Hq : - 2 ^ 19 <= shr sq 12 < 2 ^ 19).
  { rewrite shr_div by lia. unfold in_int32 in Hsq.
    change (2 ^ 12) with 4096. Z.div_mod_to_equations. lia. }
  unfold mul32. rewrite int32_t_small by (unfold in_int32; lia).
  rewrite shr_div by lia. change (2 ^ 14) with 16384.
  Z.div_mod_to_equations. lia.
Qed.

Lemma default_t_fine_sum : Vendor.t_fine 27504 26435 (-1000) adc = v1 + v2.
Proof.
  unfold Vendor.t_fine. fold v1 v2.
  pose proof default_var1_bound. pose proof default_var2_bound.
  unfold add32. apply int32_t_small. unfold in_int32. lia.
Qed.

Lemma default_temperature_fits :
  int16_t (shr (add32 (add32 v1 v2) 256) 9) = Vendor.temperature (v1 + v2).
Proof.
  pose proof default_var1_bound. pose proof default_var2_bound.
  unfold add32.
  rewrite (int32_t_small (v1 + v2)) by (unfold in_int32; lia).
  rewrite int32_t_small by (unfold in_int32; lia).
  unfold Vendor.temperature. fold (shr (v1 + v2 + 256) 9).
  apply int16_t_small. rewrite shr_div by lia. change (2 ^ 9) with 512.
  Z.div_mod_to_equations. lia.
Qed.

End DefaultTemperature.

(** On the 20-bit range of the converter no operation of the 32-bit formula
    wraps: it agrees with the formula over the integers. *)
Lemma default_t_fine_exact (adc : Z) :
  0 <= adc < 2 ^ 20 ->
  Vendor.t_fine 27504 26435 (-1000) adc
  = Vendor.exact_t_fine 27504 26435 (-1000) adc.
Proof.
  intros Hadc.
  assert (H3 : 0 <= shr adc 3 <= 131071).
  { rewrite shr_div by lia. change (2 ^ 3) with 8.
    Z.div_mod_to_equations. lia. }
  assert (H4 : 0 <= shr adc 4 <= 65535).
  { rewrite shr_div by lia. change (2 ^ 4) with 16.
    Z.div_mod_to_equations. lia. }
  unfold Vendor.t_fine, Vendor.exact_t_fine, Vendor.var1, Vendor.var2.
  fold (shr adc 3) (shr adc 4).
  change (shl32 27504 1) with 55008. change (Z.shiftl 27504 1) with 55008.
  unfold sub32.
  rewrite (int32_t_small (shr adc 3 - 55008)) by (unfold in_int32; lia).
  rewrite (int32_t_small (shr adc 4 - 27504)) by (unfold in_int32; lia).
  set (a := shr adc 3 - 55008) in *. set (b := shr adc 4 - 27504) in *.
  assert (Hbb : 0 <= b * b <= 1446356961) by nia.
  unfold mul32.
  rewrite (int32_t_small (a * 26435)) by (unfold in_int32; lia).
  rewrite (int32_t_small (b * b)) by (unfold in_int32; lia).
  fold (shr (a * 26435) 11) (shr (b * b) 12).
  assert (Hq : 0 <= shr (b * b) 12 <= 353114).
  { rewrite shr_div by lia. change (2 ^ 12) with 4096.
    Z.div_mod_to_equations. lia. }
  rewrite (int32_t_small (shr (b * b) 12 * -1000)) by (unfold in_int32; lia).
  fold (shr (shr (b * b) 12 * -1000) 14).
  assert (H1 : - 2 ^ 20 <= shr (a * 26435) 11 < 2 ^ 20).
  { rewrite shr_div by lia. change (2 ^ 11) with 2048.
    Z.div_mod_to_equations. lia. }
  assert (H2 : - 32000 <= shr (shr (b * b) 12 * -1000) 14 <= 0).
  { rewrite shr_div by lia. change (2 ^ 14) with 16384.
    Z.div_mod_to_equations. lia. }
  unfold add32. apply int32_t_small. unfold in_int32. lia.
Qed.

(** C5.  With the default calibration constants, which [DefaultCalib] sets
    to the documented values, [CalcTemperature] leaves in [FineTemp] the sum
    [var1 + var2] of the 32-bit reference formula for every [RawTemp], and
    in [Temperature] exactly [(FineTemp + 256) >> 9]: the conversion to the
    16-bit member loses nothing.  On the 20-bit range of
    the converter the 32-bit formula is the formula over the integers. *)
Theorem CalcTemperature_default_reference (s : BMP280) :
  let d := DefaultCalib s in
  let s' := CalcTemperature d in
  Calibration d
  = [27504; 26435; -1000; 36477; -10685; 3024; 2855; 140; -7; 15500; -14600;
     6000; 0]
  /\ FineTemp s' = Vendor.t_fine (T1 d) (T2 d) (T3 d) (RawTemp s)
  /\ Temperature s' = Vendor.temperature (FineTemp s')
  /\ (0 <= RawTemp s < 2 ^ 20 ->
      FineTemp s' = Vendor.exact_t_fine (T1 d) (T2 d) (T3 d) (RawTemp s)).
Proof.
  intros d s'.
  assert (Hfine : FineTemp s'
                  = Vendor.t_fine 27504 26435 (-1000) (RawTemp s)).
  { subst s' d. unfold CalcTemperature, DefaultCalib.
    cbn [FineTemp RawTemp T1 T2 T3 set_FineTemp set_Temperature].
    rewrite !int32_t_small by (unfold in_int32; lia).
    unfold Vendor.t_fine, Vendor.var1, Vendor.var2. reflexivity. }
  split; [reflexivity |]. split; [exact Hfine |]. split.
  - rewrite Hfine, default_t_fine_sum.
    apply default_temperature_fits.
  - intros Hdev. rewrite Hfine. apply default_t_fine_exact, Hdev.
Qed.

(** The vendor's worked example: raw temperature 519888 gives fine
    temperature 128422 and 25.1 degC. *)
Lemma CalcTemperature_default_reference_witness :
  let s := set_RawTemp 519888 blank in
  0 <= RawTemp s < 2 ^ 20
  /\ FineTemp (CalcTemperature (DefaultCalib s)) = 128422
  /\ Temperature (CalcTemperature (DefaultCalib s)) = 251
  /\ Vendor.exact_t_fine 27504 26435 (-1000) 519888 = 128422.
Proof.
  intros s.
  assert (H : 0 <= RawTemp s < 2 ^ 20) by (simpl; lia).
  split; [exact H |].
  destruct (CalcTemperature_default_reference s) as (_ & Hf & Ht & He).
  split; [rewrite Hf; vm_compute; reflexivity |].
  split; [rewrite Ht, Hf; vm_compute; reflexivity |].
  transitivity (FineTemp (CalcTemperature (DefaultCalib s))).
  - symmetry. exact (He H).
  - rewrite Hf. vm_compute. reflexivity.
Defined.

(** ** Pressure compensation *)

Ltac members :=
  cbn [T1 T2 T3 P1 P2 P3 P4 P5 P6 P7 P8 P9 D Error RawTemp FineTemp
       Temperature RawPress Pressure Calibration readings
       set_Error set_RawTemp set_FineTemp set_Temperature set_RawPress
       set_Pressure fst snd option_map].

Lemma div64_defined (a b : Z) :
  b <> 0 -> ~ (a = - 2 ^ 63 /\ b = -1) ->
  div64 a b = Some (int64_t (Z.quot a b)).
Proof.
  intros Hb Ho. unfold div64. apply Z.eqb_neq in Hb. rewrite Hb.
  destruct (Z.eqb_spec a (- 2 ^ 63)) as [Ea | Ea];
    destruct (Z.eqb_spec b (-1)) as [Eb | Eb]; cbn [andb]; try reflexivity.
  exfalso. apply Ho. split; assumption.
Qed.

Lemma div64_None (a b : Z) :
  div64 a b = None <-> b = 0 \/ (a = - 2 ^ 63 /\ b = -1).
Proof.
  unfold div64.
  destruct (Z.eqb_spec b 0) as [Eb | Eb]; [split; auto |].
  destruct (Z.eqb_spec a (- 2 ^ 63)) as [Ea | Ea];
    destruct (Z.eqb_spec b (-1)) as [E1 | E1]; cbn [andb];
    split; intros H; try discriminate; auto;
    destruct H as [H | [H1 H2]]; contradiction.
Qed.

(** [CalcPressure] by cases on the value it tests against zero. *)
Lemma CalcPressure_zero (s : BMP280) :
  CalcPressure_var1 s = 0 -> CalcPressure s = ([], Some (set_Pressure 0 s)).
Proof.
  unfold CalcPressure, CalcPressure_var1. cbv zeta. intros H.
  rewrite H. change (0 =? 0) with true. cbv iota. reflexivity.
Qed.

Lemma CalcPressure_nonzero (s : BMP280) :
  CalcPressure_var1 s <> 0 ->
  CalcPressure s
  = ([CalcPressure_var1 s],
     option_map (CalcPressure_tail s)
                (div64 (CalcPressure_dividend s) (CalcPressure_var1 s))).
Proof.
  unfold CalcPressure, CalcPressure_dividend, CalcPressure_var2,
    CalcPressure_var1, div64_logged.
  cbv zeta. intros H. apply Z.eqb_neq in H. rewrite H. reflexivity.
Qed.

(** The call yields no object exactly when the quotient is not an
    [int64_t]. *)
Lemma CalcPressure_None (s : BMP280) :
  snd (CalcPressure s) = None <-> quotient_overflows s.
Proof.
  unfold quotient_overflows.
  destruct (Z.eq_dec (CalcPressure_var1 s) 0) as [H | H].
  - rewrite (CalcPressure_zero s H), H. cbn [snd].
    split; [discriminate | intros [_ E]; discriminate].
  - rewrite (CalcPressure_nonzero s H). cbn [snd].
    destruct (div64 (CalcPressure_dividend s) (CalcPressure_var1 s))
      as [q |] eqn:E; cbn [option_map].
    + split; [discriminate |]. intros O.
      assert (N : div64 (CalcPressure_dividend s) (CalcPressure_var1 s)
                  = None) by (apply div64_None; right; exact O).
      rewrite N in E. discriminate.
    + split; [| reflexivity]. intros _.
      apply div64_None in E. destruct E as [E | E]; [contradiction | exact E].
Qed.

Lemma CalcPressure_shape (s s' : BMP280) :
  snd (CalcPressure s) = Some s' -> exists v, s' = set_Pressure v s.
Proof.
  destruct (Z.eq_dec (CalcPressure_var1 s) 0) as [H | H].
  - rewrite (CalcPressure_zero s H). cbn [snd]. intros E.
    injection E as <-. eexists. reflexivity.
  - rewrite (CalcPressure_nonzero s H). cbn [snd].
    destruct (div64 _ _) as [q |]; cbn [option_map]; [| discriminate].
    intros E. injection E as <-. eexists. reflexivity.
Qed.

Lemma CalcPressure_sets_Pressure (s : BMP280) :
  ~ quotient_overflows s ->
  exists v, snd (CalcPressure s) = Some (set_Pressure v s).
Proof.
  intros Ho.
  destruct (snd (CalcPressure s)) as [s' |] eqn:E.
  - destruct (CalcPressure_shape s s' E) as [v ->]. exists v. reflexivity.
  - apply CalcPressure_None in E. contradiction.
Qed.

(** A product by 3125 is never wrapped to -2^63, because 3125 is odd. *)
Lemma mul_3125_not_min (x : Z) :
  - 2 ^ 63 < x < 2 ^ 63 -> int64_t (x * 3125) <> - 2 ^ 63.
Proof.
  intros Hx E. unfold int64_t, wrap_signed in E.
  change (2 ^ (64 - 1)) with (2 ^ 63) in E.
  assert (M : (x * 3125 + 2 ^ 63) mod 2 ^ 64 = 0) by lia.
  apply Z.mod_divide in M; [| lia]. destruct M as [k Hk].
  assert (G : (2 ^ 63 | 3125 * x)) by (exists (2 * k - 1); lia).
  apply Z.gauss in G; [| reflexivity]. destruct G as [j Hj].
  assert (j = 0) by lia. subst j. lia.
Qed.

Lemma mul_bound (a b A B : Z) :
  - A <= a <= A -> - B <= b <= B -> - (A * B) <= a * b <= A * B.
Proof. intros Ha Hb. nia. Qed.

(** The fine temperature [CalcTemperature] leaves is within 21 bits. *)
Lemma CalcTemperature_FineTemp_bound (s : BMP280) :
  - 2 ^ 20 - 2 ^ 17 <= FineTemp (CalcTemperature s) < 2 ^ 20 + 2 ^ 17.
Proof.
  unfold CalcTemperature. cbv zeta. cbn [FineTemp set_FineTemp set_Temperature].
  set (m1 := mul32 (sub32 (shr (RawTemp s) 3) (shl32 (int32_t (T1 s)) 1))
                   (int32_t (T2 s))).
  set (m2 := mul32 (shr (mul32 (sub32 (shr (RawTemp s) 4) (int32_t (T1 s)))
                               (sub32 (shr (RawTemp s) 4) (int32_t (T1 s))))
                        12) (int32_t (T3 s))).
  assert (H1 : in_int32 m1) by apply int32_t_range.
  assert (H2 : in_int32 m2) by apply int32_t_range.
  unfold in_int32 in H1, H2. clearbody m1 m2.
  assert (B1 : - 2 ^ 20 <= shr m1 11 < 2 ^ 20)
    by (rewrite shr_div by lia; change (2 ^ 11) with 2048;
        Z.div_mod_to_equations; lia).
  assert (B2 : - 2 ^ 17 <= shr m2 14 < 2 ^ 17)
    by (rewrite shr_div by lia; change (2 ^ 14) with 16384;
        Z.div_mod_to_equations; lia).
  unfold add32. rewrite int32_t_small by (unfold in_int32; lia). lia.
Qed.

(** With 16-bit [P4], [P5], [P6] and a fine temperature within 22 bits the
    dividend of [CalcPressure] is never -2^63. *)
Lemma dividend_not_min (s : BMP280) :
  - 2 ^ 21 <= FineTemp s <= 2 ^ 21 ->
  - 2 ^ 15 <= P4 s < 2 ^ 15 -> - 2 ^ 15 <= P5 s < 2 ^ 15 ->
  - 2 ^ 15 <= P6 s < 2 ^ 15 ->
  CalcPressure_dividend s <> - 2 ^ 63.
Proof.
  intros Hf H4 H5 H6.
  unfold CalcPressure_dividend, CalcPressure_var2. cbv zeta.
  unfold mul64, add64, sub64, shl64.
  rewrite (int64_t_small (FineTemp s)) by lia.
  rewrite (int64_t_small (P4 s)), (int64_t_small (P5 s)),
    (int64_t_small (P6 s)) by lia.
  rewrite (int64_t_small (FineTemp s - 128000)) by lia.
  set (t := FineTemp s - 128000).
  assert (Ht : -2225152 <= t <= 2225152) by (subst t; lia).
  pose proof (mul_bound t t 2225152 2225152 Ht Ht) as Htt.
  pose proof (mul_bound (t * t) (P6 s) (2225152 * 2225152) 32768
                Htt ltac:(lia)) as Ht6.
  pose proof (mul_bound t (P5 s) 2225152 32768 Ht ltac:(lia)) as Ht5.
  rewrite (int64_t_small (t * t)) by lia.
  rewrite (int64_t_small (t * t * P6 s)) by lia.
  rewrite (int64_t_small (t * P5 s)) by lia.
  rewrite !Z.shiftl_mul_pow2 by lia.
  change (2 ^ 17) with 131072. change (2 ^ 35) with 34359738368.
  change (2 ^ 31) with 2147483648.
  rewrite (int64_t_small (t * P5 s * 131072)) by lia.
  rewrite (int64_t_small (P4 s * 34359738368)) by lia.
  rewrite (int64_t_small (t * t * P6 s + t * P5 s * 131072)) by lia.
  rewrite (int64_t_small (t * t * P6 s + t * P5 s * 131072
                          + P4 s * 34359738368)) by lia.
  set (v2 := t * t * P6 s + t * P5 s * 131072 + P4 s * 34359738368) in *.
  assert (Hv2 : -180000000000000000 <= v2 <= 180000000000000000)
    by (subst v2; lia).
  pose proof (int32_t_range (1048576 - RawPress s)) as Hp.
  unfold in_int32 in Hp. fold (sub32 1048576 (RawPress s)) in Hp.
  set (p := sub32 1048576 (RawPress s)) in *. clearbody p v2.
  rewrite (int64_t_small p) by lia.
  rewrite (int64_t_small (p * 2147483648)) by lia.
  rewrite (int64_t_small (p * 2147483648 - v2)) by lia.
  apply mul_3125_not_min. lia.
Qed.

(** After [CalcTemperature] on a calibration whose words fit their types,
    the quotient of [CalcPressure] is an [int64_t]. *)
Lemma Compensate_defined (s : BMP280) :
  Calibration_typed s -> ~ quotient_overflows (CalcTemperature s).
Proof.
  intros (_ & _ & HF) [O _]. revert O.
  pose proof (CalcTemperature_FineTemp_bound s) as Hb.
  repeat match goal with
         | H : Forall _ (_ :: _) |- _ => inversion H; subst; clear H
         end.
  apply dividend_not_min; [lia | assumption ..].
Qed.

(** C4, as the specification states it, fails: [CalcPressure] is not total
    for every [FineTemp].  With [P1] = 1, [P2] = 16, [P5] = -32768, the
    other words 0, [FineTemp] = -2147356648 and [RawPress] = 1046576, all
    of them values of their member types, [var1] is -1 and the dividend is
    -2^63; the division is by a non-zero value and has no result. *)
Lemma CalcPressure_quotient_overflow :
  let s := mkBMP280 0 0 0 1 16 0 0 (-32768) 0 0 0 0 0
                    0 0 (-2147356648) 0 1046576 0 in
  (Calibration_typed s /\ in_int32 (FineTemp s) /\ raw_20_bit (RawPress s))
  /\ CalcPressure_var1 s = -1
  /\ CalcPressure_dividend s = - 2 ^ 63
  /\ CalcPressure s = ([-1], None).
Proof.
  intros s. split.
  - unfold Calibration_typed, in_int32, raw_20_bit.
    cbn [s T1 T2 T3 P1 P2 P3 P4 P5 P6 P7 P8 P9 D FineTemp RawPress].
    split; [| lia]. split; [lia |]. split; [lia |].
    repeat (constructor; [lia |]). constructor.
  - vm_compute. repeat split.
Qed.

(** C4, amended.  [CalcPressure] never divides by zero.  When the value
    [var1] reaches the zero test as 0, the call divides by nothing and sets
    [Pressure] to 0 (touching nothing else); otherwise its single division
    is by that non-zero [var1].  The call yields an object except when that
    division overflows ([var1] = -1 and the dividend -2^63); after
    [CalcTemperature] on a calibration whose words fit their types it
    always yields one. *)
Theorem CalcPressure_never_divides_by_zero (s : BMP280) :
  (CalcPressure_var1 s = 0 ->
   CalcPressure s = ([], Some (set_Pressure 0 s)))
  /\ (CalcPressure_var1 s <> 0 ->
      fst (CalcPressure s) = [CalcPressure_var1 s])
  /\ (forall d, In d (fst (CalcPressure s)) -> d <> 0)
  /\ (~ quotient_overflows s -> exists s', snd (CalcPressure s) = Some s')
  /\ (Calibration_typed s ->
      exists s', snd (CalcPressure (CalcTemperature s)) = Some s').
Proof.
  split; [apply CalcPressure_zero |].
  split.
  { intros H. rewrite (CalcPressure_nonzero s H). reflexivity. }
  split.
  { intros d Hd. destruct (Z.eq_dec (CalcPressure_var1 s) 0) as [H | H].
    - rewrite (CalcPressure_zero s H) in Hd. destruct Hd.
    - rewrite (CalcPressure_nonzero s H) in Hd.
      destruct Hd as [<- | []]. exact H. }
  split.
  { intros Ho. destruct (CalcPressure_sets_Pressure s Ho) as [v Hv]. eauto. }
  intros Ht.
  destruct (CalcPressure_sets_Pressure (CalcTemperature s)
              (Compensate_defined s Ht)) as [v Hv].
  eauto.
Qed.

(** An object whose [P1] is 0 drives [var1] to zero; the default
    calibration with the vendor's example does not. *)
Lemma CalcPressure_never_divides_by_zero_witness :
  let z := set_RawPress 415148 (set_FineTemp 128422 blank) in
  let n := set_RawPress 415148 (set_FineTemp 128422 (DefaultCalib blank)) in
  (CalcPressure_var1 z = 0
   /\ CalcPressure z = ([], Some (set_Pressure 0 z)))
  /\ (CalcPressure_var1 n <> 0
      /\ fst (CalcPressure n) = [CalcPressure_var1 n])
  /\ (In 597560748 (fst (CalcPressure n)) /\ 597560748 <> 0)
  /\ (~ quotient_overflows n /\ exists s', snd (CalcPressure n) = Some s')
  /\ (Calibration_typed n
      /\ exists s', snd (CalcPressure (CalcTemperature n)) = Some s').
Proof.
  intros z n.
  destruct (CalcPressure_never_divides_by_zero z) as (Hz & _).
  destruct (CalcPressure_never_divides_by_zero n)
    as (_ & Hn & Hd & Ho & Ht).
  assert (E0 : CalcPressure_var1 z = 0) by (vm_compute; reflexivity).
  assert (E1 : CalcPressure_var1 n <> 0) by (vm_compute; discriminate).
  assert (E2 : In 597560748 (fst (CalcPressure n)))
    by (left; vm_compute; reflexivity).
  assert (E3 : ~ quotient_overflows n)
    by (intros [_ V]; vm_compute in V; discriminate).
  assert (E4 : Calibration_typed n).
  { unfold Calibration_typed.
    cbn [n DefaultCalib set_RawPress set_FineTemp T1 T2 T3 P1 P2 P3 P4 P5 P6
         P7 P8 P9 D].
    split; [lia |]. split; [lia |]. repeat (constructor; [lia |]).
    constructor. }
  split; [split; [exact E0 | exact (Hz E0)] |].
  split; [split; [exact E1 | exact (Hn E1)] |].
  split; [split; [exact E2 | exact (Hd _ E2)] |].
  split; [split; [exact E3 | exact (Ho E3)] |].
  split; [exact E4 | exact (Ht E4)].
Defined.

(** ** What the compensation reads and writes *)

Lemma Calibration_inv (s s' : BMP280) :
  Calibration s = Calibration s' ->
  T1 s = T1 s' /\ T2 s = T2 s' /\ T3 s = T3 s' /\ P1 s = P1 s'
  /\ P2 s = P2 s' /\ P3 s = P3 s' /\ P4 s = P4 s' /\ P5 s = P5 s'
  /\ P6 s = P6 s' /\ P7 s = P7 s' /\ P8 s = P8 s' /\ P9 s = P9 s'.
Proof.
  unfold Calibration. intros H.
  injection H as -> -> -> -> -> -> -> -> -> -> -> -> _.
  repeat split.
Qed.

(** [CalcTemperature] reads [RawTemp] and the calibration only. *)
Lemma CalcTemperature_ext (s s' : BMP280) :
  RawTemp s = RawTemp s' -> Calibration s = Calibration s' ->
  FineTemp (CalcTemperature s) = FineTemp (CalcTemperature s')
  /\ Temperature (CalcTemperature s) = Temperature (CalcTemperature s').
Proof.
  intros Hr Hc. apply Calibration_inv in Hc.
  destruct Hc as (H1 & H2 & H3 & _).
  unfold CalcTemperature. cbv zeta. members.
  rewrite Hr, H1, H2, H3. split; reflexivity.
Qed.

(** [CalcPressure] reads [FineTemp], [RawPress] and the calibration only. *)
Lemma CalcPressure_ext (s s' : BMP280) :
  FineTemp s = FineTemp s' -> RawPress s = RawPress s' ->
  Calibration s = Calibration s' ->
  fst (CalcPressure s) = fst (CalcPressure s')
  /\ option_map Pressure (snd (CalcPressure s))
     = option_map Pressure (snd (CalcPressure s')).
Proof.
  intros Hf Hr Hc. apply Calibration_inv in Hc.
  destruct Hc as (_ & _ & _ & H1 & H2 & H3 & H4 & H5 & H6 & H7 & H8 & H9).
  unfold CalcPressure, CalcPressure_tail, div64_logged. cbv zeta.
  rewrite Hf, Hr, H1, H2, H3, H4, H5, H6, H7, H8, H9.
  match goal with |- context [if ?c then _ else _] => destruct c end.
  - members. split; reflexivity.
  - match goal with |- context [div64 ?a ?b] => destruct (div64 a b) end;
      members; split; reflexivity.
Qed.

Lemma Calibration_typed_ext (s s' : BMP280) :
  Calibration s' = Calibration s -> Calibration_typed s ->
  Calibration_typed s'.
Proof.
  unfold Calibration. intros Hc Ht.
  injection Hc as E1 E2 E3 E4 E5 E6 E7 E8 E9 E10 E11 E12 E13.
  unfold Calibration_typed.
  rewrite E1, E2, E3, E4, E5, E6, E7, E8, E9, E10, E11, E12, E13.
  exact Ht.
Qed.

Lemma CalcTemperature_again (s : BMP280) (v : Z) :
  CalcTemperature (set_Pressure v (CalcTemperature s))
  = set_Pressure v (CalcTemperature s).
Proof.
  unfold CalcTemperature. cbv zeta. unfold set_Pressure at 1 3. members.
  unfold set_Temperature, set_FineTemp, set_Pressure. members. reflexivity.
Qed.

Lemma CalcPressure_again (s : BMP280) (v : Z) :
  snd (CalcPressure s) = Some (set_Pressure v s) ->
  snd (CalcPressure (set_Pressure v s)) = Some (set_Pressure v s).
Proof.
  intros Hv.
  destruct (CalcPressure_ext (set_Pressure v s) s) as [_ Hp];
    [reflexivity | reflexivity | reflexivity |].
  rewrite Hv in Hp. cbn [option_map] in Hp.
  destruct (snd (CalcPressure (set_Pressure v s))) as [s' |] eqn:E;
    cbn [option_map] in Hp; [| discriminate].
  destruct (CalcPressure_shape _ _ E) as [v' Es]. subst s'.
  unfold set_Pressure in Hp. cbn [Pressure] in Hp.
  injection Hp as Hp. subst v'. reflexivity.
Qed.

(** C8.  On an object whose calibration words fit their member types, a
    reading cycle ([CalcTemperature], then [CalcPressure]) always
    completes; running the cycle again on its own result changes nothing, so
    [Temperature], [FineTemp] and [Pressure] are the same after the second
    run; and any object with the same [RawTemp], [RawPress] and calibration
    gets the same three outputs, whatever its other members hold. *)
Theorem Compensate_idempotent_deterministic (s : BMP280) :
  Calibration_typed s ->
  exists s1,
    Compensate s = Some s1
    /\ Compensate s1 = Some s1
    /\ forall s',
         RawTemp s' = RawTemp s -> RawPress s' = RawPress s ->
         Calibration s' = Calibration s ->
         option_map readings (Compensate s') = Some (readings s1).
Proof.
  intros Ht. unfold Compensate.
  destruct (CalcPressure_sets_Pressure (CalcTemperature s)
              (Compensate_defined s Ht)) as [v Hv].
  exists (set_Pressure v (CalcTemperature s)).
  split; [exact Hv |]. split.
  - rewrite CalcTemperature_again. apply CalcPressure_again, Hv.
  - intros s' Hr Hp Hc.
    destruct (CalcTemperature_ext s' s Hr Hc) as [Hf Hte].
    destruct (CalcPressure_ext (CalcTemperature s') (CalcTemperature s))
      as [_ Hq]; [exact Hf | exact Hp | exact Hc |].
    destruct (CalcPressure_sets_Pressure (CalcTemperature s')
                (Compensate_defined s' (Calibration_typed_ext s s' Hc Ht)))
      as [v' Hv'].
    rewrite Hv, Hv' in Hq. rewrite Hv'.
    cbn [option_map] in Hq |- *. unfold set_Pressure in Hq.
    cbn [Pressure] in Hq.
    injection Hq as ->.
    unfold readings, set_Pressure. cbn [Temperature FineTemp Pressure].
    rewrite Hf, Hte. reflexivity.
Qed.

(** The vendor's example, run from two objects that differ in every member
    the compensation does not read. *)
Lemma Compensate_idempotent_deterministic_witness :
  let s := set_RawPress 415148 (set_RawTemp 519888 (DefaultCalib blank)) in
  let s' := set_Error 7 (set_Pressure 99 (set_FineTemp 5 s)) in
  Calibration_typed s
  /\ exists s1,
       Compensate s = Some s1
       /\ Compensate s1 = Some s1
       /\ option_map readings (Compensate s') = Some (readings s1).
Proof.
  intros s s'.
  assert (T : Calibration_typed s).
  { unfold Calibration_typed.
    cbn [s DefaultCalib set_RawPress set_RawTemp T1 T2 T3 P1 P2 P3 P4 P5 P6
         P7 P8 P9 D].
    split; [lia |]. split; [lia |]. repeat (constructor; [lia |]).
    constructor. }
  split; [exact T |].
  destruct (Compensate_idempotent_deterministic s T) as (s1 & H1 & H2 & H3).
  exists s1. split; [exact H1 |]. split; [exact H2 |].
  apply H3; reflexivity.
Defined.

(** C9.  [CalcTemperature] writes [FineTemp] and [Temperature] only, and
    [CalcPressure] writes [Pressure] only: the calibration words, the raw
    samples and [Error] are the same after either call, and each call also
    leaves the other's outputs alone.  This holds of whatever object
    [CalcPressure] yields, and it yields one unless its division
    overflows. *)
Theorem compensation_frame (s : BMP280) :
  (Calibration (CalcTemperature s) = Calibration s
   /\ RawTemp (CalcTemperature s) = RawTemp s
   /\ RawPress (CalcTemperature s) = RawPress s
   /\ Error (CalcTemperature s) = Error s
   /\ Pressure (CalcTemperature s) = Pressure s)
  /\ (forall s',
        snd (CalcPressure s) = Some s' ->
        Calibration s' = Calibration s
        /\ RawTemp s' = RawTemp s
        /\ RawPress s' = RawPress s
        /\ Error s' = Error s
        /\ FineTemp s' = FineTemp s
        /\ Temperature s' = Temperature s)
  /\ (~ quotient_overflows s -> exists s', snd (CalcPressure s) = Some s')
  /\ (Calibration_typed s ->
      exists s',
        snd (CalcPressure (CalcTemperature s)) = Some s'
        /\ Calibration s' = Calibration s
        /\ RawTemp s' = RawTemp s
        /\ RawPress s' = RawPress s
        /\ Error s' = Error s).
Proof.
  split; [| split; [| split]].
  - unfold CalcTemperature. cbv zeta. members. repeat split.
  - intros s' E. destruct (CalcPressure_shape s s' E) as [v ->].
    members. repeat split.
  - intros Ho. destruct (CalcPressure_sets_Pressure s Ho) as [v Hv]. eauto.
  - intros Ht.
    destruct (CalcPressure_sets_Pressure (CalcTemperature s)
                (Compensate_defined s Ht)) as [v Hv].
    exists (set_Pressure v (CalcTemperature s)). split; [exact Hv |].
    unfold CalcTemperature. cbv zeta. members. repeat split.
Qed.

(** The vendor's example on the default calibration. *)
Lemma compensation_frame_witness :
  let s := set_RawPress 415148 (set_RawTemp 519888 (DefaultCalib blank)) in
  let t := CalcTemperature s in
  exists s',
    snd (CalcPressure t) = Some s'
    /\ Calibration s' = Calibration s
    /\ RawTemp s' = 519888 /\ RawPress s' = 415148
    /\ FineTemp s' = FineTemp t /\ Temperature s' = Temperature t.
Proof.
  intros s t.
  assert (T : Calibration_typed s).
  { unfold Calibration_typed.
    cbn [s DefaultCalib set_RawPress set_RawTemp T1 T2 T3 P1 P2 P3 P4 P5 P6
         P7 P8 P9 D].
    split; [lia |]. split; [lia |]. repeat (constructor; [lia |]).
    constructor. }
  destruct (compensation_frame s) as (_ & _ & _ & C).
  destruct (C T) as (s' & E & Hc & Hr & Hp & _).
  destruct (compensation_frame t) as (_ & F & _).
  destruct (F s' E) as (_ & _ & _ & _ & Hf & Hte).
  exists s'. split; [exact E |]. split; [exact Hc |].
  split; [rewrite Hr; reflexivity |]. split; [rewrite Hp; reflexivity |].
  split; [exact Hf | exact Hte].
Defined.

(** ** Bytes and masks *)

Lemma byte_val_range (b : byte) : 0 <= byte_val b < 256.
Proof. unfold byte_val. pose proof (Byte.to_N_bounded b). lia. Qed.

(** Masking with a byte-wide mask at bit [k] selects the byte at bit [k]. *)
Lemma land_shifted_byte (a k : Z) :
  0 <= k -> Z.land a (Z.shiftl 255 k) = ((a / 2 ^ k) mod 2 ^ 8) * 2 ^ k.
Proof.
  intros Hk. apply Z.bits_inj'. intros n Hn.
  rewrite Z.land_spec, Z.shiftl_spec, Z.mul_pow2_bits by lia.
  destruct (Z.ltb_spec n k) as [Hlt | Hge].
  - rewrite !(Z.testbit_neg_r _ (n - k)) by lia. apply andb_false_r.
  - rewrite Z.testbit_mod_pow2, Z.div_pow2_bits by lia.
    change 255 with (Z.ones 8). rewrite Z.testbit_ones_nonneg by lia.
    replace (n - k + k) with n by lia. apply andb_comm.
Qed.

(** Bits that do not overlap add up. *)
Lemma lor_high_low (hi lo k : Z) :
  0 <= k -> 0 <= lo < 2 ^ k -> Z.lor (hi * 2 ^ k) lo = hi * 2 ^ k + lo.
Proof.
  intros Hk Hlo.
  assert (Hd : Z.land (hi * 2 ^ k) lo = 0).
  { apply Z.bits_inj'. intros n Hn.
    rewrite Z.land_spec, Z.bits_0.
    destruct (Z.ltb_spec n k) as [Hlt | Hge].
    - rewrite Z.mul_pow2_bits_low by lia. reflexivity.
    - rewrite <- (Z.mod_small lo (2 ^ k)) by lia.
      rewrite Z.mod_pow2_bits_high by lia. apply andb_false_r. }
  rewrite <- (Z.lxor_lor _ _ Hd). symmetry. apply Z.add_nocarry_lxor, Hd.
Qed.

(** The value of three bytes, most significant first. *)
Lemma big_endian_value (v0 v1 v2 : Z) :
  0 <= v1 < 256 -> 0 <= v2 < 256 ->
  Z.lor (Z.lor (Z.shiftl v0 16) (Z.shiftl v1 8)) v2
  = 65536 * v0 + 256 * v1 + v2.
Proof.
  intros H1 H2. rewrite !Z.shiftl_mul_pow2 by lia.
  rewrite (lor_high_low v0 (v1 * 2 ^ 8) 16) by lia.
  replace (v0 * 2 ^ 16 + v1 * 2 ^ 8) with ((v0 * 256 + v1) * 2 ^ 8) by lia.
  rewrite lor_high_low by lia. lia.
Qed.

(** The byte swap of the raw readers, applied to the word that holds a
    3-byte burst stored lowest address first. *)
Lemma swap_stored_burst (v0 v1 v2 : Z) :
  0 <= v0 < 256 -> 0 <= v1 < 256 -> 0 <= v2 < 256 ->
  let x := v0 + 256 * (v1 + 256 * (v2 + 256 * 0)) in
  Z.lor (Z.lor (Z.land (shl32 x 16) 0xFF0000) (Z.land x 0x00FF00))
        (Z.land (shr x 16) 0x0000FF)
  = 65536 * v0 + 256 * v1 + v2.
Proof.
  intros H0 H1 H2 x.
  change 0xFF0000 with (Z.shiftl 255 16).
  change 0x00FF00 with (Z.shiftl 255 8).
  change 0x0000FF with (Z.shiftl 255 0).
  rewrite !land_shifted_byte by lia.
  unfold shl32, int32_t, wrap_signed. rewrite shr_div, Z.shiftl_mul_pow2 by lia.
  change (2 ^ (32 - 1)) with 2147483648. change (2 ^ 32) with 4294967296.
  change (2 ^ 16) with 65536. change (2 ^ 8) with 256. change (2 ^ 0) with 1.
  assert (E0 : ((x * 65536 + 2147483648) mod 4294967296 - 2147483648)
               / 65536 mod 256 = v0)
    by (subst x; Z.div_mod_to_equations; lia).
  assert (E1 : x / 256 mod 256 = v1)
    by (subst x; Z.div_mod_to_equations; lia).
  assert (E2 : x / 65536 / 1 mod 256 = v2)
    by (subst x; Z.div_mod_to_equations; lia).
  rewrite E0, E1, E2.
  rewrite <- (big_endian_value v0 v1 v2) by lia.
  rewrite !Z.shiftl_mul_pow2 by lia. rewrite Z.mul_1_r. reflexivity.
Qed.

(** ** Raw readers *)

Lemma poke_zeroed (bs : list byte) : poke (uint32_t 0) bs = le_value bs.
Proof.
  unfold poke. change (uint32_t 0) with 0. rewrite Z.div_0_l, Z.mul_0_r; lia.
Qed.

Lemma le_value_3 (b0 b1 b2 : byte) :
  0 <= le_value [b0; b1; b2] < 2 ^ 24.
Proof.
  cbn [le_value].
  pose proof (byte_val_range b0). pose proof (byte_val_range b1).
  pose proof (byte_val_range b2). lia.
Qed.

Ltac run_method :=
  cbv beta iota zeta; unfold I2C_Read, I2C_Write, ret, obj, env;
  cbv beta iota zeta; members.

(** What either raw reader leaves after a burst that arrived. *)
Lemma ReadRawTemp_ok (s : BMP280) (w : world) (b0 b1 b2 : byte) :
  next_reply w = ok [b0; b1; b2] ->
  ret (ReadRawTemp (s, w)) = 0
  /\ RawTemp (obj (ReadRawTemp (s, w)))
     = Vendor.decode (byte_val b0) (byte_val b1) (byte_val b2)
  /\ RawTemp (obj (ReadRawTemp (s, w)))
     = (65536 * byte_val b0 + 256 * byte_val b1 + byte_val b2) / 16.
Proof.
  intros Hr.
  pose proof (byte_val_range b0) as R0. pose proof (byte_val_range b1) as R1.
  pose proof (byte_val_range b2) as R2.
  unfold ReadRawTemp. run_method. rewrite Hr. unfold ok.
  cbn [err data firstn]. change (byte_val x00) with 0.
  change (negb (0 =? 0)) with false. run_method.
  rewrite poke_zeroed, int32_t_small
    by (pose proof (le_value_3 b0 b1 b2); unfold in_int32; lia).
  cbn [le_value]. rewrite swap_stored_burst by assumption.
  unfold Vendor.decode. rewrite big_endian_value by assumption.
  rewrite shr_div by lia. unfold shr. rewrite Z.shiftr_div_pow2 by lia.
  repeat split.
Qed.

Lemma ReadRawPress_ok (s : BMP280) (w : world) (b0 b1 b2 : byte) :
  next_reply w = ok [b0; b1; b2] ->
  ret (ReadRawPress (s, w)) = 0
  /\ RawPress (obj (ReadRawPress (s, w)))
     = Vendor.decode (byte_val b0) (byte_val b1) (byte_val b2)
  /\ RawPress (obj (ReadRawPress (s, w)))
     = (65536 * byte_val b0 + 256 * byte_val b1 + byte_val b2) / 16.
Proof.
  intros Hr.
  pose proof (byte_val_range b0) as R0. pose proof (byte_val_range b1) as R1.
  pose proof (byte_val_range b2) as R2.
  unfold ReadRawPress. run_method. rewrite Hr. unfold ok.
  cbn [err data firstn]. change (byte_val x00) with 0.
  change (negb (0 =? 0)) with false. run_method.
  rewrite poke_zeroed, int32_t_small
    by (pose proof (le_value_3 b0 b1 b2); unfold in_int32; lia).
  cbn [le_value]. rewrite swap_stored_burst by assumption.
  unfold Vendor.decode. rewrite big_endian_value by assumption.
  rewrite shr_div by lia. unfold shr. rewrite Z.shiftr_div_pow2 by lia.
  repeat split.
Qed.

(** C6.  For every 3-byte burst [b0, b1, b2] the transport delivers,
    [ReadRawTemp] and [ReadRawPress] return 0 and leave in the raw member
    the big-endian 24-bit value [(b0<<16) | (b1<<8) | b2] shifted right
    by 4. *)
Theorem ReadRaw_decodes_big_endian (s : BMP280) (w : world) (b0 b1 b2 : byte) :
  next_reply w = ok [b0; b1; b2] ->
  (ret (ReadRawTemp (s, w)) = 0
   /\ RawTemp (obj (ReadRawTemp (s, w)))
      = Vendor.decode (byte_val b0) (byte_val b1) (byte_val b2))
  /\ (ret (ReadRawPress (s, w)) = 0
      /\ RawPress (obj (ReadRawPress (s, w)))
         = Vendor.decode (byte_val b0) (byte_val b1) (byte_val b2)).
Proof.
  intros Hr.
  destruct (ReadRawTemp_ok s w b0 b1 b2 Hr) as (Ht0 & Ht & _).
  destruct (ReadRawPress_ok s w b0 b1 b2 Hr) as (Hp0 & Hp & _).
  repeat split; assumption.
Qed.

(** The burst 12 34 56 (hex) gives 0x12345. *)
Lemma ReadRaw_decodes_big_endian_witness :
  let w := boot (fun _ => ok [x12; x34; x56]) in
  next_reply w = ok [x12; x34; x56]
  /\ RawTemp (obj (ReadRawTemp (blank, w))) = 0x12345
  /\ RawPress (obj (ReadRawPress (blank, w))) = 0x12345.
Proof.
  intros w.
  assert (Hr : next_reply w = ok [x12; x34; x56]) by reflexivity.
  split; [exact Hr |].
  destruct (ReadRaw_decodes_big_endian blank w x12 x34 x56 Hr)
    as ((_ & Ht) & (_ & Hp)).
  split; [rewrite Ht | rewrite Hp]; vm_compute; reflexivity.
Defined.

(** C7, as the specification states it, fails: the burst 80 00 00 (hex) has
    its top bit set, and the raw members it leaves are 0x80000, not
    negative. *)
Lemma ReadRaw_top_bit_not_negative :
  let w := boot (fun _ => ok [x80; x00; x00]) in
  0x800000 <= 65536 * byte_val x80 + 256 * byte_val x00 + byte_val x00
  /\ ~ RawTemp (obj (ReadRawTemp (blank, w))) < 0
  /\ ~ RawPress (obj (ReadRawPress (blank, w))) < 0.
Proof.
  vm_compute. repeat split; discriminate.
Qed.

(** C7, amended.  The raw members are unsigned 20-bit values: for every
    3-byte burst the decoded sample is the 24-bit big-endian value divided
    by 16, between 0 and 2^20 - 1; nothing is sign-extended. *)
Theorem ReadRaw_unsigned_20_bit (s : BMP280) (w : world) (b0 b1 b2 : byte) :
  next_reply w = ok [b0; b1; b2] ->
  let v := 65536 * byte_val b0 + 256 * byte_val b1 + byte_val b2 in
  RawTemp (obj (ReadRawTemp (s, w))) = v / 16
  /\ RawPress (obj (ReadRawPress (s, w))) = v / 16
  /\ 0 <= v / 16 < 2 ^ 20.
Proof.
  intros Hr v.
  destruct (ReadRawTemp_ok s w b0 b1 b2 Hr) as (_ & _ & Ht).
  destruct (ReadRawPress_ok s w b0 b1 b2 Hr) as (_ & _ & Hp).
  split; [exact Ht |]. split; [exact Hp |].
  pose proof (byte_val_range b0). pose proof (byte_val_range b1).
  pose proof (byte_val_range b2). subst v.
  Z.div_mod_to_equations. lia.
Qed.

Lemma ReadRaw_unsigned_20_bit_witness :
  let w := boot (fun _ => ok [xff; xff; xff]) in
  next_reply w = ok [xff; xff; xff]
  /\ RawTemp (obj (ReadRawTemp (blank, w))) = 2 ^ 20 - 1
  /\ RawPress (obj (ReadRawPress (blank, w))) = 2 ^ 20 - 1.
Proof.
  intros w.
  assert (Hr : next_reply w = ok [xff; xff; xff]) by reflexivity.
  split; [exact Hr |].
  destruct (ReadRaw_unsigned_20_bit blank w xff xff xff Hr) as (Ht & Hp & _).
  split; [rewrite Ht | rewrite Hp]; vm_compute; reflexivity.
Defined.

(** What either raw reader leaves after a transfer that failed. *)
Lemma ReadRawTemp_failed (s : BMP280) (w : world) :
  byte_val (err (next_reply w)) <> 0 ->
  ret (ReadRawTemp (s, w)) = byte_val (err (next_reply w))
  /\ Error (obj (ReadRawTemp (s, w))) = byte_val (err (next_reply w))
  /\ RawTemp (obj (ReadRawTemp (s, w)))
     = int32_t (le_value (firstn 3 (data (next_reply w))))
  /\ trace (env (ReadRawTemp (s, w))) = trace w ++ [Read ADDR REG_TEMP 3].
Proof.
  intros He. apply Z.eqb_neq in He.
  unfold ReadRawTemp. run_method. rewrite He. cbn [negb]. run_method.
  rewrite poke_zeroed. repeat split.
Qed.

Lemma ReadRawPress_failed (s : BMP280) (w : world) :
  byte_val (err (next_reply w)) <> 0 ->
  ret (ReadRawPress (s, w)) = byte_val (err (next_reply w))
  /\ Error (obj (ReadRawPress (s, w))) = byte_val (err (next_reply w))
  /\ RawPress (obj (ReadRawPress (s, w)))
     = int32_t (le_value (firstn 3 (data (next_reply w))))
  /\ trace (env (ReadRawPress (s, w))) = trace w ++ [Read ADDR REG_PRESS 3].
Proof.
  intros He. apply Z.eqb_neq in He.
  unfold ReadRawPress. run_method. rewrite He. cbn [negb]. run_method.
  rewrite poke_zeroed. repeat split.
Qed.

Lemma le_value_firstn_3 (bs : list byte) :
  0 <= le_value (firstn 3 bs) < 2 ^ 24.
Proof.
  destruct bs as [| a [| b [| c bs]]]; cbn [firstn le_value];
    try pose proof (byte_val_range a); try pose proof (byte_val_range b);
    try pose proof (byte_val_range c); lia.
Qed.

(** C10, as the specification states it, fails: a read that fails with
    code 5 after the transport stored the bytes 12 34 56 (hex) in the buffer
    returns 5 and leaves the raw member at 0x563412 = 5649426, not at 0. *)
Lemma ReadRaw_failure_leaves_stored_bytes :
  let w := boot (fun _ => failing x05 [x12; x34; x56]) in
  (ret (ReadRawTemp (blank, w)) = 5
   /\ RawTemp (obj (ReadRawTemp (blank, w))) = 5649426
   /\ RawTemp (obj (ReadRawTemp (blank, w))) <> 0)
  /\ (ret (ReadRawPress (blank, w)) = 5
      /\ RawPress (obj (ReadRawPress (blank, w))) = 5649426
      /\ RawPress (obj (ReadRawPress (blank, w))) <> 0).
Proof.
  vm_compute. repeat split; discriminate.
Qed.

(** C10, amended.  A raw reader clears its raw member before the transfer:
    when the transfer fails, the call returns the error code, and what the
    member held before the call plays no part in what it holds afterwards.
    It then holds the bytes the failed transfer stored in the cleared
    buffer, lowest address first and not swapped or shifted: 0 when the
    transfer stored nothing. *)
Theorem ReadRaw_failure_clears_sample (s : BMP280) (w : world) :
  byte_val (err (next_reply w)) <> 0 ->
  (ret (ReadRawTemp (s, w)) = byte_val (err (next_reply w))
   /\ ret (ReadRawPress (s, w)) = byte_val (err (next_reply w)))
  /\ (forall old,
        RawTemp (obj (ReadRawTemp (set_RawTemp old s, w)))
        = RawTemp (obj (ReadRawTemp (s, w)))
        /\ RawPress (obj (ReadRawPress (set_RawPress old s, w)))
           = RawPress (obj (ReadRawPress (s, w))))
  /\ (data (next_reply w) = [] ->
      RawTemp (obj (ReadRawTemp (s, w))) = 0
      /\ RawPress (obj (ReadRawPress (s, w))) = 0)
  /\ (RawTemp (obj (ReadRawTemp (s, w)))
      = le_value (firstn 3 (data (next_reply w)))
      /\ RawPress (obj (ReadRawPress (s, w)))
         = le_value (firstn 3 (data (next_reply w)))).
Proof.
  intros He.
  destruct (ReadRawTemp_failed s w He) as (Ht0 & _ & Ht & _).
  destruct (ReadRawPress_failed s w He) as (Hp0 & _ & Hp & _).
  split; [split; assumption |]. split; [| split].
  - intros old.
    destruct (ReadRawTemp_failed (set_RawTemp old s) w He) as (_ & _ & Ht' & _).
    destruct (ReadRawPress_failed (set_RawPress old s) w He)
      as (_ & _ & Hp' & _).
    rewrite Ht, Hp, Ht', Hp'. split; reflexivity.
  - intros Hd. rewrite Ht, Hp, Hd. split; reflexivity.
  - pose proof (le_value_firstn_3 (data (next_reply w))) as R.
    rewrite Ht, Hp, int32_t_small by (unfold in_int32; lia).
    split; reflexivity.
Qed.

(** A transfer that fails with code 5 and stores nothing, and one that
    fails with code 5 after storing one byte, on an object whose raw
    members held 1234 and 5678. *)
Lemma ReadRaw_failure_clears_sample_witness :
  let s := set_RawPress 5678 (set_RawTemp 1234 blank) in
  let w := boot (fun _ => failing x05 []) in
  let w1 := boot (fun _ => failing x05 [xab]) in
  (byte_val (err (next_reply w)) <> 0
   /\ data (next_reply w) = []
   /\ ret (ReadRawTemp (s, w)) = 5 /\ RawTemp (obj (ReadRawTemp (s, w))) = 0
   /\ ret (ReadRawPress (s, w)) = 5
   /\ RawPress (obj (ReadRawPress (s, w))) = 0)
  /\ (RawTemp (obj (ReadRawTemp (s, w1))) = 0xab
      /\ RawPress (obj (ReadRawPress (s, w1))) = 0xab).
Proof.
  intros s w w1.
  assert (He : byte_val (err (next_reply w)) <> 0)
    by (vm_compute; discriminate).
  assert (He1 : byte_val (err (next_reply w1)) <> 0)
    by (vm_compute; discriminate).
  assert (Hd : data (next_reply w) = []) by reflexivity.
  destruct (ReadRaw_failure_clears_sample s w He)
    as ((Ht0 & Hp0) & _ & Hz & _).
  destruct (ReadRaw_failure_clears_sample s w1 He1)
    as (_ & _ & _ & (Vt & Vp)).
  destruct (Hz Hd) as (Ht & Hp).
  split.
  - split; [exact He |]. split; [exact Hd |].
    split; [rewrite Ht0; reflexivity |]. split; [exact Ht |].
    split; [rewrite Hp0; reflexivity | exact Hp].
  - split; [rewrite Vt | rewrite Vp]; vm_compute; reflexivity.
Defined.

(** ** Polling *)

Lemma ReadBusy_run (s : BMP280) (w : world) :
  ReadBusy (s, w)
  = (ReadBusy_code (next_reply w),
     set_Error (byte_val (err (next_reply w))) s, polled w).
Proof.
  unfold ReadBusy, ReadBusy_code, polled. run_method.
  destruct (byte_val (err (next_reply w)) =? 0); reflexivity.
Qed.

Lemma ReadBusy_code_range (r : reply) : 0 <= ReadBusy_code r < 256.
Proof.
  unfold ReadBusy_code. pose proof (byte_val_range (err r)).
  destruct (negb _); [lia |]. destruct (_ =? 0); lia.
Qed.

Lemma WaitReady_loop_S (n : nat) (s : BMP280) (w : world) :
  WaitReady_loop (S n) (s, w)
  = let c := ReadBusy_code (next_reply w) in
    let s' := set_Error (byte_val (err (next_reply w))) s in
    if 1 <? c then (c, s', polled w)
    else if c =? 0 then (0, s', polled w)
    else WaitReady_loop n (s', vTaskDelay (polled w) 1).
Proof.
  cbn [WaitReady_loop]. rewrite ReadBusy_run. reflexivity.
Qed.

(** A poll that [ReadBusy] reports as anything but 1 ends the loop, with
    that code and with the status read as the last event. *)
Lemma WaitReady_loop_stop (n : nat) (s : BMP280) (w : world) :
  ReadBusy_code (next_reply w) <> 1 ->
  ret (WaitReady_loop (S n) (s, w)) = ReadBusy_code (next_reply w)
  /\ Error (obj (WaitReady_loop (S n) (s, w))) = byte_val (err (next_reply w))
  /\ env (WaitReady_loop (S n) (s, w)) = polled w.
Proof.
  intros Hc. rewrite WaitReady_loop_S. cbv zeta.
  pose proof (ReadBusy_code_range (next_reply w)) as R.
  destruct (Z.ltb_spec 1 (ReadBusy_code (next_reply w))) as [H1 | H1].
  - repeat split.
  - assert (E : ReadBusy_code (next_reply w) = 0) by lia.
    rewrite E. change (0 =? 0) with true. cbv iota. repeat split.
Qed.

(** A poll that [ReadBusy] reports as 1 is followed by a one-tick delay and
    the rest of the loop. *)
Lemma WaitReady_loop_continue (n : nat) (s : BMP280) (w : world) :
  ReadBusy_code (next_reply w) = 1 ->
  WaitReady_loop (S n) (s, w)
  = WaitReady_loop n (set_Error (byte_val (err (next_reply w))) s,
                      vTaskDelay (polled w) 1).
Proof.
  intros Hc. rewrite WaitReady_loop_S. cbv zeta. rewrite Hc. reflexivity.
Qed.

Lemma poll_rounds_S (n : nat) :
  poll_rounds (S n) = Read ADDR REG_STATUS 1 :: Delay 1 :: poll_rounds n.
Proof. reflexivity. Qed.

(** After [k] polls reported as 1, the loop is where it would be had it been
    entered with [k] fewer attempts left. *)
Lemma WaitReady_loop_skip (k n : nat) :
  forall (s : BMP280) (w : world),
  (forall j, (j < k)%nat ->
             ReadBusy_code (script w (served w + j)%nat) = 1) ->
  exists s' w',
    WaitReady_loop (k + n) (s, w) = WaitReady_loop n (s', w')
    /\ script w' = script w
    /\ served w' = (served w + k)%nat
    /\ trace w' = trace w ++ poll_rounds k
    /\ (k = 0%nat -> s' = s).
Proof.
  induction k as [| k IH]; intros s w Hall.
  - exists s, w. rewrite Nat.add_0_r, app_nil_r. repeat split.
  - assert (H0 : ReadBusy_code (next_reply w) = 1).
    { unfold next_reply. rewrite <- (Nat.add_0_r (served w)).
      apply Hall. lia. }
    cbn [Nat.add]. rewrite (WaitReady_loop_continue _ _ _ H0).
    destruct (IH (set_Error (byte_val (err (next_reply w))) s)
                 (vTaskDelay (polled w) 1)) as (s' & w' & E & Hs & Hn & Ht & _).
    { intros j Hj. cbn [vTaskDelay polled script served].
      replace (S (served w) + j)%nat with (served w + S j)%nat by lia.
      apply Hall. lia. }
    exists s', w'. rewrite E, Hs, Hn, Ht.
    cbn [vTaskDelay polled script served trace].
    rewrite poll_rounds_S, <- !app_assoc. cbn [app].
    repeat split; [lia | discriminate].
Qed.

Lemma polls_snoc_read (tr : list event) :
  polls (tr ++ [Read ADDR REG_STATUS 1]) = S (polls tr).
Proof.
  induction tr as [| e tr IH]; [reflexivity |].
  destruct e; cbn [app polls]; rewrite IH; lia.
Qed.

Lemma polls_snoc_delay (tr : list event) (t : Z) :
  polls (tr ++ [Delay t]) = polls tr.
Proof.
  induction tr as [| e tr IH]; [reflexivity |].
  destruct e; cbn [app polls]; rewrite IH; lia.
Qed.

(** The loop never reads the status more often than its budget. *)
Lemma WaitReady_loop_budget (n : nat) :
  forall (s : BMP280) (w : world),
  (polls (trace (env (WaitReady_loop n (s, w)))) <= polls (trace w) + n)%nat.
Proof.
  induction n as [| n IH]; intros s w.
  - cbn. lia.
  - rewrite WaitReady_loop_S. cbv zeta.
    destruct (1 <? _);
      [cbn [env snd polled trace]; rewrite polls_snoc_read; lia |].
    destruct (_ =? 0);
      [cbn [env snd polled trace]; rewrite polls_snoc_read; lia |].
    specialize (IH (set_Error (byte_val (err (next_reply w))) s)
                   (vTaskDelay (polled w) 1)).
    cbn [vTaskDelay polled trace] in IH.
    rewrite polls_snoc_delay, polls_snoc_read in IH. lia.
Qed.

(** [WaitReady] never reads the status more often than [Timeout] says. *)
Lemma WaitReady_budget (Timeout Wait : Z) (s : BMP280) (w : world) :
  (polls (trace (env (WaitReady Timeout Wait (s, w))))
   <= polls (trace w) + Z.to_nat (uint8_t Timeout))%nat.
Proof.
  unfold WaitReady.
  pose proof (WaitReady_loop_budget (Z.to_nat (uint8_t Timeout)) s
                (vTaskDelay w (uint8_t Wait))) as H.
  cbn [vTaskDelay trace] in H. rewrite polls_snoc_delay in H. exact H.
Qed.

(** All [n] polls reported as 1: the budget runs out and the loop returns
    0xFF. *)
Lemma WaitReady_loop_exhausted (n : nat) (s : BMP280) (w : world) :
  (forall j, (j < n)%nat ->
             ReadBusy_code (script w (served w + j)%nat) = 1) ->
  ret (WaitReady_loop n (s, w)) = 0xFF
  /\ trace (env (WaitReady_loop n (s, w))) = trace w ++ poll_rounds n.
Proof.
  intros Hall.
  destruct (WaitReady_loop_skip n 0 s w Hall) as (s' & w' & E & _ & _ & Ht & _).
  rewrite Nat.add_0_r in E. rewrite E. cbn [WaitReady_loop ret env fst snd].
  split; [reflexivity | exact Ht].
Qed.


Lemma ReadBusy_code_ok (b : byte) :
  ReadBusy_code (ok [b]) = if Z.land (byte_val b) 0x09 =? 0 then 1 else 0.
Proof.
  unfold ReadBusy_code, ok. cbn [err data firstn].
  change (byte_val x00) with 0. change (negb (0 =? 0)) with false. cbv iota.
  replace (uint8_t (poke 0 [b])) with (byte_val b); [reflexivity |].
  pose proof (byte_val_range b).
  unfold poke, uint8_t, wrap_unsigned. cbn [le_value length].
  rewrite Z.div_0_l, Z.mul_0_r by (cbn; lia).
  rewrite Z.mod_small; lia.
Qed.

Lemma ReadBusy_code_failing (code : byte) (bs : list byte) :
  byte_val code <> 0 -> ReadBusy_code (failing code bs) = byte_val code.
Proof.
  intros H. apply Z.eqb_neq in H. unfold ReadBusy_code, failing.
  cbn [err data]. rewrite H. reflexivity.
Qed.

(** On a bus without errors the loop returns 0 exactly when, within its
    budget, the masked status is NOT zero; a status whose mask reads zero
    makes it delay and poll again. *)
Lemma WaitReady_loop_error_free (st : nat -> byte) (n : nat) :
  forall (s : BMP280) (w : world),
  (forall k, script w k = ok [st k]) ->
  (ret (WaitReady_loop n (s, w)) = 0
   <-> exists j, (j < n)%nat
                 /\ Z.land (byte_val (st (served w + j)%nat)) 0x09 <> 0)
  /\ (ret (WaitReady_loop n (s, w)) = 0
      \/ ret (WaitReady_loop n (s, w)) = 0xFF).
Proof.
  induction n as [| n IH]; intros s w Hsc.
  - cbn [WaitReady_loop ret fst]. split; [| right; reflexivity].
    split; [discriminate | intros (j & Hj & _); lia].
  - assert (Hc : ReadBusy_code (next_reply w)
                 = if Z.land (byte_val (st (served w))) 0x09 =? 0
                   then 1 else 0)
      by (unfold next_reply; rewrite Hsc; apply ReadBusy_code_ok).
    destruct (Z.eqb_spec (Z.land (byte_val (st (served w))) 0x09) 0)
      as [Hz | Hnz].
    + rewrite (WaitReady_loop_continue _ _ _ Hc).
      destruct (IH (set_Error (byte_val (err (next_reply w))) s)
                   (vTaskDelay (polled w) 1) Hsc) as [Hiff Hor].
      cbn [vTaskDelay polled served] in Hiff.
      split; [| exact Hor]. rewrite Hiff. split.
      * intros (j & Hj & Hb). exists (S j). split; [lia |].
        replace (served w + S j)%nat with (S (served w) + j)%nat by lia.
        exact Hb.
      * intros (j & Hj & Hb). destruct j as [| j].
        -- rewrite Nat.add_0_r in Hb. contradiction.
        -- exists j. split; [lia |].
           replace (S (served w) + j)%nat with (served w + S j)%nat by lia.
           exact Hb.
    + assert (H1 : ReadBusy_code (next_reply w) <> 1)
        by (rewrite Hc; discriminate).
      destruct (WaitReady_loop_stop n s w H1) as (R & _ & _).
      rewrite R, Hc. split; [| left; reflexivity].
      split; [| reflexivity]. intros _. exists 0%nat. split; [lia |].
      rewrite Nat.add_0_r. exact Hnz.
Qed.

(** C1.  On a device that is ready at every poll (status 0x00, whose
    masked value is zero, no bus error) [WaitReady()] does not return 0 at
    the first poll: it delays and polls again twenty times and returns
    0xFF.  [ReadBusy] returns 1 for a zero mask although its comment says
    1 = busy, 0 = ready. *)
Theorem WaitReady_ready_device_times_out :
  let w := boot (fun _ => ok [x00]) in
  Z.land (byte_val x00) 0x09 = 0
  /\ ret (ReadBusy (blank, w)) = 1
  /\ ret (WaitReady_default (blank, w)) = 0xFF
  /\ trace (env (WaitReady_default (blank, w)))
     = Delay 30 :: poll_rounds 20.
Proof.
  vm_compute. repeat split.
Qed.

(** C2.  On a device that is busy at every poll (status 0x08, conversion in
    progress, no bus error) [WaitReady()] delays 30 ticks, polls once and
    returns 0: it neither polls twenty times nor returns 0xFF. *)
Theorem WaitReady_busy_device_returns_zero :
  let w := boot (fun _ => ok [x08]) in
  Z.land (byte_val x08) 0x09 <> 0
  /\ ret (ReadBusy (blank, w)) = 0
  /\ ret (WaitReady_default (blank, w)) = 0
  /\ trace (env (WaitReady_default (blank, w)))
     = [Delay 30; Read ADDR REG_STATUS 1].
Proof.
  vm_compute. repeat split. discriminate.
Qed.

(** ** Bus failures *)






(** * Further properties of the driver *)

(** ** Device identity *)

Lemma poke_one_byte (b : byte) : uint8_t (poke 0 [b]) = byte_val b.
Proof.
  pose proof (byte_val_range b).
  unfold poke, uint8_t, wrap_unsigned. cbn [le_value length].
  rewrite Z.div_0_l, Z.mul_0_r by (cbn; lia).
  rewrite Z.mod_small; lia.
Qed.

(** X1.  [CheckID] makes one 1-byte read of the ID register and leaves the
    transport's code in [Error].  A failed read returns that code.  After
    a read that succeeded, the call returns 0 exactly when the byte is 0x58
    and 1 otherwise: a non-zero return with [Error] = 0 means a wrong
    device, not a bus fault. *)
Theorem CheckID_accepts_only_0x58 (s : BMP280) (w : world) :
  let r := CheckID (s, w) in
  let e := byte_val (err (next_reply w)) in
  trace (env r) = trace w ++ [Read ADDR REG_ID 1]
  /\ Error (obj r) = e
  /\ (e <> 0 -> ret r = e)
  /\ (forall b rest,
        e = 0 -> data (next_reply w) = b :: rest ->
        (ret r = 0 <-> byte_val b = 0x58) /\ (ret r = 0 \/ ret r = 1)).
Proof.
  intros r e. subst r. unfold CheckID. run_method. fold e.
  destruct (Z.eqb_spec e 0) as [He | He]; cbn [negb]; run_method.
  - split; [reflexivity |]. split; [reflexivity |].
    split; [intros H; contradiction |].
    intros b rest _ Hd. rewrite Hd. cbn [firstn]. rewrite poke_one_byte.
    destruct (Z.eqb_spec (byte_val b) 0x58) as [Hb | Hb]; cbn [negb].
    + split; [split; intros _; [exact Hb | reflexivity] | left; reflexivity].
    + split; [split; [discriminate | intros H; contradiction]
             | right; reflexivity].
  - split; [reflexivity |]. split; [reflexivity |].
    split; [reflexivity |]. intros b rest H. contradiction.
Qed.

(** The right device, a wrong device (ID 0x55 of the older BMP180) and a
    bus that fails with code 4. *)
Lemma CheckID_accepts_only_0x58_witness :
  let good := boot (fun _ => ok [x58]) in
  let other := boot (fun _ => ok [x55]) in
  let dead := boot (fun _ => failing x04 []) in
  ret (CheckID (blank, good)) = 0
  /\ (ret (CheckID (blank, other)) = 1
      /\ Error (obj (CheckID (blank, other))) = 0)
  /\ ret (CheckID (blank, dead)) = 4.
Proof.
  intros good other dead.
  destruct (CheckID_accepts_only_0x58 blank good) as (_ & _ & _ & G).
  destruct (CheckID_accepts_only_0x58 blank other) as (_ & E & _ & O).
  destruct (CheckID_accepts_only_0x58 blank dead) as (_ & _ & F & _).
  assert (Z0 : byte_val (err (next_reply good)) = 0) by reflexivity.
  assert (Z1 : byte_val (err (next_reply other)) = 0) by reflexivity.
  assert (Z2 : byte_val (err (next_reply dead)) <> 0)
    by (vm_compute; discriminate).
  destruct (G x58 [] Z0 eq_refl) as [Gi _].
  destruct (O x55 [] Z1 eq_refl) as [Oi Oo].
  split; [apply Gi; reflexivity |]. split.
  - split; [| rewrite E; exact Z1].
    destruct Oo as [H | H]; [| exact H].
    apply Oi in H. vm_compute in H. discriminate.
  - rewrite (F Z2). vm_compute. reflexivity.
Defined.

(** ** Calibration load *)

Lemma byte_val_byte_of (z : Z) : byte_val (byte_of z) = z mod 256.
Proof.
  pose proof (Z.mod_pos_bound z 256 ltac:(lia)) as R.
  unfold byte_of, byte_val.
  destruct (Byte.of_N (Z.to_N (z mod 256))) as [b |] eqn:E.
  - apply Byte.to_of_N in E. rewrite E. apply Z2N.id. lia.
  - apply Byte.of_N_None_iff in E. lia.
Qed.

Lemma store_pair (old : Z) (lo hi : byte) :
  poke (uint16_t old) [lo; hi] = byte_val lo + 256 * byte_val hi.
Proof.
  unfold poke, uint16_t, wrap_unsigned. cbn [le_value length].
  change (2 ^ (8 * Z.of_nat 2)) with (2 ^ 16).
  pose proof (Z.mod_pos_bound old (2 ^ 16) ltac:(lia)).
  rewrite (Z.div_small (old mod 2 ^ 16)) by lia. lia.
Qed.

Lemma store_u16_pair (old : Z) (lo hi : byte) :
  store_u16 old [lo; hi] = byte_val lo + 256 * byte_val hi.
Proof.
  unfold store_u16. rewrite store_pair.
  pose proof (byte_val_range lo). pose proof (byte_val_range hi).
  unfold uint16_t, wrap_unsigned. apply Z.mod_small. lia.
Qed.

Lemma store_s16_pair (old : Z) (lo hi : byte) :
  store_s16 old [lo; hi] = int16_t (byte_val lo + 256 * byte_val hi).
Proof. unfold store_s16. rewrite store_pair. reflexivity. Qed.

(** The calibration members after a burst of at least 26 bytes. *)
Lemma ReadCalib_words (s : BMP280) (w : world) :
  (26 <= length (data (next_reply w)))%nat ->
  let d := data (next_reply w) in
  Calibration (obj (ReadCalib (s, w)))
  = [word_at 0 d; sword_at 1 d; sword_at 2 d; word_at 3 d; sword_at 4 d;
     sword_at 5 d; sword_at 6 d; sword_at 7 d; sword_at 8 d; sword_at 9 d;
     sword_at 10 d; sword_at 11 d; sword_at 12 d].
Proof.
  intros Hlen d. subst d. unfold ReadCalib. run_method.
  destruct (data (next_reply w)) as [| b0 d]; [cbn in Hlen; lia |].
  do 25 (destruct d as [| ? d]; [cbn in Hlen; lia |]).
  cbn [firstn chunk skipn Nat.mul Nat.add].
  unfold set_Error. members.
  rewrite !store_u16_pair, !store_s16_pair.
  unfold sword_at, word_at. cbn [nth Nat.mul Nat.add]. reflexivity.
Qed.

Lemma ReadCalib_typed (s : BMP280) (w : world) :
  Calibration_typed (obj (ReadCalib (s, w))).
Proof.
  assert (U : forall old c, 0 <= store_u16 old c < 2 ^ 16).
  { intros old c. unfold store_u16, uint16_t, wrap_unsigned.
    apply Z.mod_pos_bound. lia. }
  assert (S : forall old c, - 2 ^ 15 <= store_s16 old c < 2 ^ 15).
  { intros old c. unfold store_s16, int16_t.
    apply (wrap_signed_range 16). lia. }
  unfold ReadCalib. run_method. unfold Calibration_typed, set_Error. members.
  split; [apply U |]. split; [apply U |].
  repeat (constructor; [apply S |]). constructor.
Qed.

Lemma store_u16_nil (old : Z) : 0 <= old < 2 ^ 16 -> store_u16 old [] = old.
Proof.
  intros H. unfold store_u16, poke, uint16_t, wrap_unsigned.
  cbn [le_value length]. change (2 ^ (8 * Z.of_nat 0)) with 1.
  rewrite Z.div_1_r. change (2 ^ 16) with 65536 in *.
  Z.div_mod_to_equations. lia.
Qed.

Lemma store_s16_nil (old : Z) :
  - 2 ^ 15 <= old < 2 ^ 15 -> store_s16 old [] = old.
Proof.
  intros H.
  unfold store_s16, poke, uint16_t, wrap_unsigned, int16_t, wrap_signed.
  cbn [le_value length]. change (2 ^ (8 * Z.of_nat 0)) with 1.
  rewrite Z.div_1_r. change (2 ^ (16 - 1)) with 32768.
  change (2 ^ 16) with 65536. change (2 ^ 15) with 32768 in H.
  Z.div_mod_to_equations. lia.
Qed.

(** X2.  [ReadCalib] makes one 26-byte read of the calibration register
    and returns the transport's code, which it also leaves in [Error]; it
    does not look at that code before using the buffer.  A burst of 26 bytes
    or more sets member number [k] to the little-endian 16-bit word at
    bytes [2k], [2k+1], unsigned for [T1] and [P1] and two's complement for
    the others, whatever the members held before; further bytes are
    ignored.  Whatever arrives, every member stays within its type.  When
    nothing arrives, a well-typed calibration is left as it was. *)
Theorem ReadCalib_loads_little_endian_words (s : BMP280) (w : world) :
  let r := ReadCalib (s, w) in
  let d := data (next_reply w) in
  (ret r = byte_val (err (next_reply w)) /\ Error (obj r) = ret r)
  /\ trace (env r) = trace w ++ [Read ADDR REG_CALIB 26]
  /\ Calibration_typed (obj r)
  /\ ((26 <= length d)%nat ->
      Calibration (obj r)
      = [word_at 0 d; sword_at 1 d; sword_at 2 d; word_at 3 d; sword_at 4 d;
         sword_at 5 d; sword_at 6 d; sword_at 7 d; sword_at 8 d;
         sword_at 9 d; sword_at 10 d; sword_at 11 d; sword_at 12 d])
  /\ (d = [] -> Calibration_typed s -> Calibration (obj r) = Calibration s).
Proof.
  intros r d. subst r d.
  split; [unfold ReadCalib; run_method; split; reflexivity |].
  split; [unfold ReadCalib; run_method; reflexivity |].
  split; [apply ReadCalib_typed |].
  split; [apply ReadCalib_words |].
  intros Hd (HT1 & HP1 & HF). unfold ReadCalib. run_method. rewrite Hd.
  cbn [firstn chunk skipn Nat.mul Nat.add]. unfold set_Error. members.
  repeat match goal with
         | H : Forall _ (_ :: _) |- _ => inversion H; subst; clear H
         end.
  rewrite !store_u16_nil, !store_s16_nil by assumption. reflexivity.
Qed.

(** The burst 10 6B 43 67 18 FC ... : [T1] = 0x6B10 = 27408 and
    [T3] = 0xFC18 as a signed word, -1000; and an empty delivery on the
    default calibration. *)
Lemma ReadCalib_loads_little_endian_words_witness :
  let d := [x10; x6b; x43; x67; x18; xfc; x7d; x8e; x43; xd6; xd0; x0b;
            x27; x0b; x8c; x00; xf9; xff; x8c; x3c; xf8; xc6; x70; x17;
            x00; x00] in
  let w := boot (fun _ => ok d) in
  let w0 := boot (fun _ => failing x02 []) in
  (26 <= length (data (next_reply w)))%nat
  /\ Calibration (obj (ReadCalib (blank, w)))
     = [27408; 26435; -1000; 36477; -10685; 3024; 2855; 140; -7; 15500;
        -14600; 6000; 0]
  /\ Calibration (obj (ReadCalib (DefaultCalib blank, w0)))
     = Calibration (DefaultCalib blank).
Proof.
  intros d w w0.
  assert (L : (26 <= length (data (next_reply w)))%nat) by (cbn; lia).
  destruct (ReadCalib_loads_little_endian_words blank w) as (_ & _ & _ & F & _).
  destruct (ReadCalib_loads_little_endian_words (DefaultCalib blank) w0)
    as (_ & _ & _ & _ & N).
  split; [exact L |]. split.
  - rewrite (F L). vm_compute. reflexivity.
  - apply N; [reflexivity |].
    unfold Calibration_typed. cbn [DefaultCalib T1 T2 T3 P1 P2 P3 P4 P5 P6 P7
                                   P8 P9 D].
    split; [lia |]. split; [lia |]. repeat (constructor; [lia |]).
    constructor.
Defined.

Lemma le16_word (v : Z) :
  byte_val (byte_of v) + 256 * byte_val (byte_of (v / 256)) = v mod 65536.
Proof. rewrite !byte_val_byte_of. Z.div_mod_to_equations. lia. Qed.

Lemma int16_t_of_image (v : Z) :
  - 2 ^ 15 <= v < 2 ^ 15 -> int16_t (v mod 65536) = v.
Proof.
  intros H. unfold int16_t, wrap_signed.
  change (2 ^ (16 - 1)) with 32768. change (2 ^ 16) with 65536.
  change (2 ^ 15) with 32768 in H. Z.div_mod_to_equations. lia.
Qed.

(** X3.  Round trip of the calibration: when the device sends the thirteen
    words of a well-typed calibration set, each low byte first, in member
    order, [ReadCalib] leaves exactly that set in the object, whatever the
    object held before. *)
Theorem ReadCalib_round_trip (s c : BMP280) (w : world) :
  Calibration_typed c ->
  data (next_reply w) = burst_of (Calibration c) ->
  Calibration (obj (ReadCalib (s, w))) = Calibration c.
Proof.
  intros (HT1 & HP1 & HF) Hd.
  rewrite ReadCalib_words by (rewrite Hd; cbn; lia).
  rewrite Hd. unfold sword_at, word_at, Calibration, burst_of.
  cbn [flat_map le16 app nth Nat.mul Nat.add].
  repeat match goal with
         | H : Forall _ (_ :: _) |- _ => inversion H; subst; clear H
         end.
  rewrite !le16_word. rewrite !int16_t_of_image by assumption.
  change (2 ^ 16) with 65536 in *. rewrite !Z.mod_small by lia. reflexivity.
Qed.

(** The default calibration read back into an object that held another. *)
Lemma ReadCalib_round_trip_witness :
  let c := DefaultCalib blank in
  let w := boot (fun _ => ok (burst_of (Calibration c))) in
  Calibration_typed c
  /\ Calibration (obj (ReadCalib (set_Error 3 blank, w))) = Calibration c.
Proof.
  intros c w.
  assert (T : Calibration_typed c).
  { unfold Calibration_typed.
    cbn [c DefaultCalib T1 T2 T3 P1 P2 P3 P4 P5 P6 P7 P8 P9 D].
    split; [lia |]. split; [lia |]. repeat (constructor; [lia |]).
    constructor. }
  split; [exact T |].
  exact (ReadCalib_round_trip (set_Error 3 blank) c w T eq_refl).
Defined.

(** ** The shape of a wait *)

Ltac finish :=
  try lia; try assumption; try reflexivity; try (intros; discriminate).

(** How the polling loop ends: after [k] polls that went on it either has
    used up its budget or meets a poll that [ReadBusy] does not report
    as 1. *)
Lemma WaitReady_loop_outcome (n : nat) :
  forall (s : BMP280) (w : world),
  let r := WaitReady_loop n (s, w) in
  exists k,
    (forall j, (j < k)%nat ->
               ReadBusy_code (script w (served w + j)%nat) = 1)
    /\ script (env r) = script w
    /\ ((k = n /\ ret r = 0xFF
         /\ trace (env r) = trace w ++ poll_rounds k
         /\ served (env r) = (served w + k)%nat
         /\ (k = 0%nat -> obj r = s))
        \/ ((k < n)%nat
            /\ ReadBusy_code (script w (served w + k)%nat) <> 1
            /\ ret r = ReadBusy_code (script w (served w + k)%nat)
            /\ Error (obj r) = byte_val (err (script w (served w + k)%nat))
            /\ trace (env r)
               = trace w ++ poll_rounds k ++ [Read ADDR REG_STATUS 1]
            /\ served (env r) = (served w + S k)%nat)).
Proof.
  induction n as [| n IH]; intros s w r; subst r.
  - exists 0%nat. split; [intros j Hj; lia |]. split; [reflexivity |].
    left. cbn [WaitReady_loop ret obj env fst snd poll_rounds repeat concat].
    rewrite app_nil_r, Nat.add_0_r. repeat split.
  - destruct (Z.eq_dec (ReadBusy_code (next_reply w)) 1) as [H1 | H1].
    + rewrite (WaitReady_loop_continue _ _ _ H1).
      destruct (IH (set_Error (byte_val (err (next_reply w))) s)
                   (vTaskDelay (polled w) 1)) as (k & Hall & Hsc & Hend).
      cbn [vTaskDelay polled script served trace] in Hall, Hsc, Hend.
      exists (S k). split; [| split; [exact Hsc |]].
      * intros j Hj. destruct j as [| j].
        -- rewrite Nat.add_0_r. exact H1.
        -- replace (served w + S j)%nat with (S (served w) + j)%nat by lia.
           apply Hall. lia.
      * replace (served w + S k)%nat with (S (served w) + k)%nat by lia.
        rewrite poll_rounds_S.
        destruct Hend as [(E & R & T & V & _) | (L & C & R & Er & T & V)].
        -- left. rewrite R, T, V, <- !app_assoc. cbn [app].
           repeat split; finish.
        -- right. rewrite R, Er, T, V, <- !app_assoc. cbn [app].
           repeat split; finish.
    + exists 0%nat. split; [intros j Hj; lia |].
      destruct (WaitReady_loop_stop n s w H1) as (R1 & R2 & R3).
      rewrite R3. split; [reflexivity |]. right.
      rewrite Nat.add_0_r. fold (next_reply w). rewrite R1, R2.
      cbn [polled trace served poll_rounds repeat concat app].
      repeat split; finish.
Qed.

Lemma ReadBusy_code_zero (r : reply) :
  ReadBusy_code r = 0 -> byte_val (err r) = 0.
Proof.
  unfold ReadBusy_code.
  destruct (Z.eqb_spec (byte_val (err r)) 0) as [E | E]; cbn [negb];
    [intros _; exact E | intros H; contradiction].
Qed.

Lemma ReadBusy_code_above_1 (r : reply) :
  1 < ReadBusy_code r -> ReadBusy_code r = byte_val (err r).
Proof.
  unfold ReadBusy_code.
  destruct (Z.eqb_spec (byte_val (err r)) 0) as [E | E]; cbn [negb];
    [| reflexivity].
  destruct (_ =? 0); lia.
Qed.

Lemma delays_app (a b : list event) : delays (a ++ b) = delays a + delays b.
Proof.
  induction a as [| e a IH]; [reflexivity |].
  destruct e; cbn [app delays]; rewrite IH; lia.
Qed.

Lemma writes_app (a b : list event) : writes (a ++ b) = writes a ++ writes b.
Proof.
  induction a as [| e a IH]; [reflexivity |].
  destruct e; cbn [app writes]; rewrite IH; reflexivity.
Qed.

Lemma polls_app (a b : list event) : (polls (a ++ b) = polls a + polls b)%nat.
Proof.
  induction a as [| e a IH]; [reflexivity |].
  destruct e; cbn [app polls]; rewrite IH; lia.
Qed.

Lemma poll_rounds_counts (k : nat) :
  delays (poll_rounds k) = Z.of_nat k
  /\ writes (poll_rounds k) = []
  /\ polls (poll_rounds k) = k.
Proof.
  induction k as [| k (D & W & P)]; [repeat split |].
  rewrite poll_rounds_S. cbn [delays writes polls]. rewrite D, W, P.
  change (REG_STATUS =? REG_STATUS) with true. repeat split; lia.
Qed.

(** X4.  [WaitReady] is a bounded wait that only reads: after the settle
    delay it makes [k] status reads each followed by a one-tick delay and
    then either stops on one more status read or, with [k] = [Timeout],
    gives up with 0xFF.  It writes nothing to the bus, reads the status at
    most [Timeout] times, consumes one answer of the transport per read and
    spends at most [Wait + Timeout] ticks in delays. *)
Theorem WaitReady_bounded_read_only_wait
  (Timeout Wait : Z) (s : BMP280) (w : world) :
  let r := WaitReady Timeout Wait (s, w) in
  let n := Z.to_nat (uint8_t Timeout) in
  let tr := trace (env r) in
  (exists k,
     (k <= n)%nat
     /\ ((k = n /\ ret r = 0xFF
          /\ tr = trace w ++ Delay (uint8_t Wait) :: poll_rounds k)
         \/ ((k < n)%nat
             /\ tr = trace w ++ Delay (uint8_t Wait) :: poll_rounds k
                     ++ [Read ADDR REG_STATUS 1])))
  /\ writes tr = writes (trace w)
  /\ (polls tr <= polls (trace w) + n)%nat
  /\ (served (env r) - served w = polls tr - polls (trace w))%nat
  /\ delays tr - delays (trace w) <= uint8_t Wait + Z.of_nat n.
Proof.
  intros r n tr. subst r tr. unfold WaitReady. fold n.
  destruct (WaitReady_loop_outcome n s (vTaskDelay w (uint8_t Wait)))
    as (k & _ & _ & Hend).
  cbn [vTaskDelay script served trace] in Hend.
  destruct (poll_rounds_counts k) as (D & W & P).
  destruct Hend as [(E & R & T & V & _) | (L & _ & _ & _ & T & V)];
    rewrite T, V, <- !app_assoc; cbn [app];
    rewrite ?writes_app, ?polls_app, ?delays_app;
    cbn [writes polls delays]; rewrite ?writes_app, ?polls_app, ?delays_app;
    rewrite D, W, P; cbn [writes polls delays app];
    change (REG_STATUS =? REG_STATUS) with true; rewrite ?app_nil_r.
  - split; [exists k; split; [lia | left; repeat split; assumption] |].
    repeat split; lia.
  - split; [exists k; split; [lia | right; repeat split; assumption] |].
    repeat split; lia.
Qed.

(** X5.  What the value returned by [WaitReady] tells its caller.  It is a
    byte and never 1.  A return of 0 means the last status read went
    through ([Error] is 0).  A return other than 0 and 0xFF is the code of a
    failed status read, greater than 1 and equal to [Error].  0xFF is
    returned when the budget runs out, and also when a status read fails
    with code 0xFF.  A zero [Timeout] gives 0xFF after the settle delay
    alone. *)
Theorem WaitReady_return_codes (Timeout Wait : Z) (s : BMP280) (w : world) :
  let r := WaitReady Timeout Wait (s, w) in
  (0 <= ret r <= 255 /\ ret r <> 1)
  /\ (ret r = 0 -> Error (obj r) = 0)
  /\ (ret r <> 0 -> ret r <> 0xFF -> 1 < ret r /\ Error (obj r) = ret r)
  /\ (uint8_t Timeout = 0 ->
      ret r = 0xFF /\ obj r = s
      /\ trace (env r) = trace w ++ [Delay (uint8_t Wait)]).
Proof.
  intros r. subst r. unfold WaitReady.
  destruct (WaitReady_loop_outcome (Z.to_nat (uint8_t Timeout)) s
              (vTaskDelay w (uint8_t Wait))) as (k & _ & _ & Hend).
  cbn [vTaskDelay script served trace] in Hend.
  destruct Hend as [(E & R & T & V & O) | (L & C & R & Er & T & V)].
  - rewrite R. split; [lia |]. split; [discriminate |].
    split; [intros _ H; contradiction |].
    intros Z0. rewrite Z0 in E. cbn in E. subst k.
    rewrite T, (O eq_refl). cbn [poll_rounds repeat concat].
    rewrite app_nil_r. repeat split.
  - pose proof (ReadBusy_code_range
                  (script w (served w + k)%nat)) as Rg.
    rewrite R, Er. split; [lia |]. split; [apply ReadBusy_code_zero |].
    split.
    + intros N0 _.
      assert (G : 1 < ReadBusy_code (script w (served w + k)%nat)) by lia.
      split; [exact G | symmetry; apply ReadBusy_code_above_1, G].
    + intros Z0. rewrite Z0 in L. cbn in L. lia.
Qed.

(** A device that is converting, a status read that fails with code 3 after
    one poll that went on, and a wait with no attempts. *)
Lemma WaitReady_return_codes_witness :
  let busy := boot (fun _ => ok [x08]) in
  let broken := boot (fun n => match n with
                               | O => ok [x00]
                               | _ => failing x03 []
                               end) in
  (ret (WaitReady 20 30 (set_Error 9 blank, busy)) = 0
   /\ Error (obj (WaitReady 20 30 (set_Error 9 blank, busy))) = 0)
  /\ (ret (WaitReady 20 30 (blank, broken)) = 3
      /\ Error (obj (WaitReady 20 30 (blank, broken))) = 3)
  /\ (ret (WaitReady 0 30 (blank, busy)) = 0xFF
      /\ trace (env (WaitReady 0 30 (blank, busy))) = [Delay 30]).
Proof.
  intros busy broken.
  destruct (WaitReady_return_codes 20 30 (set_Error 9 blank) busy)
    as (_ & A & _).
  destruct (WaitReady_return_codes 20 30 blank broken) as (_ & _ & B & _).
  destruct (WaitReady_return_codes 0 30 blank busy) as (_ & _ & _ & C).
  assert (R0 : ret (WaitReady 20 30 (set_Error 9 blank, busy)) = 0)
    by (vm_compute; reflexivity).
  assert (R3 : ret (WaitReady 20 30 (blank, broken)) = 3)
    by (vm_compute; reflexivity).
  split; [split; [exact R0 | exact (A R0)] |].
  split.
  - split; [exact R3 |].
    destruct B as [_ HB]; [rewrite R3; discriminate .. |].
    rewrite HB. exact R3.
  - destruct (C eq_refl) as (C1 & _ & C3). split; [exact C1 | exact C3].
Defined.

(** ** Starting a measurement *)

(** X6.  [Trigger] returns what it leaves in [Error] and changes nothing
    else in the object.  It returns 0 exactly when both writes went
    through, and then it has written 0x00 to the configuration register
    and after it 0x55 to the control register; the control write, which
    starts the measurement, is issued only after a configuration write
    that succeeded.  It reads nothing. *)
Theorem Trigger_success_iff_both_writes (s : BMP280) (w : world) :
  let r := Trigger (s, w) in
  let e1 := byte_val (err (script w (served w))) in
  let e2 := byte_val (err (script w (S (served w)))) in
  obj r = set_Error (ret r) s
  /\ (ret r = 0 <-> e1 = 0 /\ e2 = 0)
  /\ (e1 = 0 ->
      writes (trace (env r))
      = writes (trace w) ++ [(REG_CONFIG, 0x00); (REG_CTRL, 0x55)])
  /\ (e1 <> 0 ->
      writes (trace (env r)) = writes (trace w) ++ [(REG_CONFIG, 0x00)])
  /\ polls (trace (env r)) = polls (trace w).
Proof.
  intros r e1 e2. subst r. unfold Trigger. run_method.
  unfold next_reply. fold e1.
  destruct (Z.eqb_spec e1 0) as [E | E]; cbn [negb]; run_method;
    cbn [script served trace]; fold e2;
    rewrite ?writes_app, ?polls_app; cbn [writes polls app];
    rewrite <- ?app_assoc; cbn [app].
  - split; [reflexivity |].
    split; [split; [intros H; auto | intros [_ H]; exact H] |].
    split; [reflexivity |]. split; [intros H; contradiction | lia].
  - split; [reflexivity |].
    split; [split; [intros H; contradiction | intros [H _]; contradiction] |].
    split; [intros H; contradiction |]. split; [reflexivity | lia].
Qed.

Lemma Trigger_success_iff_both_writes_witness :
  let w := boot (fun _ => ok []) in
  let w' := boot (fun n => match n with O => failing x02 [] | _ => ok [] end) in
  (ret (Trigger (blank, w)) = 0
   /\ writes (trace (env (Trigger (blank, w))))
      = [(REG_CONFIG, 0x00); (REG_CTRL, 0x55)])
  /\ writes (trace (env (Trigger (blank, w')))) = [(REG_CONFIG, 0x00)].
Proof.
  intros w w'.
  destruct (Trigger_success_iff_both_writes blank w) as (_ & I & W2 & _).
  destruct (Trigger_success_iff_both_writes blank w') as (_ & _ & _ & W1 & _).
  split; [split |].
  - apply I. split; reflexivity.
  - exact (W2 eq_refl).
  - apply W1. vm_compute. discriminate.
Defined.

(** ** What the acquisition writes in the object *)

Lemma set_Error_eta (s : BMP280) : set_Error (Error s) s = s.
Proof. destruct s. reflexivity. Qed.

Lemma WaitReady_loop_frame (n : nat) :
  forall (s : BMP280) (w : world),
  exists e, obj (WaitReady_loop n (s, w)) = set_Error e s.
Proof.
  induction n as [| n IH]; intros s w.
  - exists (Error s). cbn [WaitReady_loop obj fst snd].
    symmetry. apply set_Error_eta.
  - rewrite WaitReady_loop_S. cbv zeta.
    destruct (1 <? _); [eexists; reflexivity |].
    destruct (_ =? 0); [eexists; reflexivity |].
    destruct (IH (set_Error (byte_val (err (next_reply w))) s)
                 (vTaskDelay (polled w) 1)) as [e He].
    exists e. rewrite He. reflexivity.
Qed.

(** X7.  Each acquisition call writes only its own members: [CheckID] and
    [WaitReady] change [Error] alone, [ReadRawTemp] changes [Error] and
    [RawTemp], [ReadRawPress] changes [Error] and [RawPress], and
    [ReadCalib] leaves the raw samples and the compensated reading as they
    were.  None of them touches [FineTemp], [Temperature] or [Pressure], and
    reading one raw sample never disturbs the other or the calibration. *)
Theorem acquisition_frame (s : BMP280) (w : world) :
  (exists e, obj (CheckID (s, w)) = set_Error e s)
  /\ (forall Timeout Wait,
        exists e, obj (WaitReady Timeout Wait (s, w)) = set_Error e s)
  /\ (exists e v, obj (ReadRawTemp (s, w)) = set_Error e (set_RawTemp v s))
  /\ (exists e v, obj (ReadRawPress (s, w)) = set_Error e (set_RawPress v s))
  /\ (let c := obj (ReadCalib (s, w)) in
      RawTemp c = RawTemp s /\ RawPress c = RawPress s
      /\ FineTemp c = FineTemp s /\ Temperature c = Temperature s
      /\ Pressure c = Pressure s).
Proof.
  split; [| split; [| split; [| split]]].
  - unfold CheckID. run_method.
    destruct (negb _); [| destruct (negb _)]; eexists; reflexivity.
  - intros Timeout Wait. unfold WaitReady. apply WaitReady_loop_frame.
  - unfold ReadRawTemp. run_method.
    destruct (negb _); run_method; do 2 eexists;
      unfold set_Error, set_RawTemp; members; reflexivity.
  - unfold ReadRawPress. run_method.
    destruct (negb _); run_method; do 2 eexists;
      unfold set_Error, set_RawPress; members; reflexivity.
  - unfold ReadCalib. run_method. unfold set_Error. members. repeat split.
Qed.

(** ** The default calibration over the range of the converter *)

(** The fine temperature of the default calibration, over the integers. *)
Lemma default_fine_arith (adc : Z) :
  Vendor.exact_t_fine 27504 26435 (-1000) adc
  = (adc / 8 - 55008) * 26435 / 2048
    + (adc / 16 - 27504) * (adc / 16 - 27504) / 4096 * -1000 / 16384.
Proof.
  unfold Vendor.exact_t_fine. rewrite !Z.shiftr_div_pow2 by lia.
  reflexivity.
Qed.

(** One more count of the converter never lowers the fine temperature. *)
Lemma default_fine_step (adc : Z) :
  0 <= adc < 2 ^ 20 - 1 ->
  Vendor.exact_t_fine 27504 26435 (-1000) adc
  <= Vendor.exact_t_fine 27504 26435 (-1000) (adc + 1).
Proof.
  intros H. rewrite !default_fine_arith.
  assert (H16 : (adc + 1) / 16 = adc / 16
                \/ ((adc + 1) / 16 = adc / 16 + 1
                    /\ (adc + 1) / 8 = adc / 8 + 1))
    by (Z.div_mod_to_equations; lia).
  assert (H8 : adc / 8 <= (adc + 1) / 8) by (Z.div_mod_to_equations; lia).
  assert (B : 0 <= adc / 16 /\ (adc + 1) / 16 <= 65535)
    by (Z.div_mod_to_equations; lia).
  destruct H16 as [E | [E E8]].
  - rewrite E. apply Z.add_le_mono_r, Z.div_le_mono; lia.
  - rewrite E, E8.
    set (b := adc / 16 - 27504) in *.
    replace (adc / 16 + 1 - 27504) with (b + 1) by (subst b; lia).
    replace ((b + 1) * (b + 1)) with (b * b + 2 * b + 1) by ring.
    replace ((adc / 8 + 1 - 55008) * 26435)
      with ((adc / 8 - 55008) * 26435 + 26435) by ring.
    assert (Hb : -27504 <= b <= 38030) by (subst b; lia).
    set (A := (adc / 8 - 55008) * 26435). set (t := b * b).
    clearbody A t.
    assert (Hq : (t + 2 * b + 1) / 4096 <= t / 4096 + 19)
      by (Z.div_mod_to_equations; lia).
    set (q := t / 4096) in *. set (q' := (t + 2 * b + 1) / 4096) in *.
    clearbody q q'. Z.div_mod_to_equations. lia.
Qed.

Lemma default_fine_monotone (a b : Z) :
  0 <= a -> a <= b -> b < 2 ^ 20 ->
  Vendor.exact_t_fine 27504 26435 (-1000) a
  <= Vendor.exact_t_fine 27504 26435 (-1000) b.
Proof.
  intros Ha Hab Hb.
  replace b with (a + Z.of_nat (Z.to_nat (b - a))) in * by lia.
  induction (Z.to_nat (b - a)) as [| n IH]; [rewrite Z.add_0_r; lia |].
  rewrite Nat2Z.inj_succ in *.
  etransitivity; [apply IH; lia |].
  replace (a + Z.succ (Z.of_nat n)) with (a + Z.of_nat n + 1) by lia.
  apply default_fine_step. lia.
Qed.

Lemma default_FineTemp (s : BMP280) :
  FineTemp (CalcTemperature (DefaultCalib s))
  = Vendor.t_fine 27504 26435 (-1000) (RawTemp s).
Proof.
  unfold CalcTemperature, DefaultCalib.
  cbn [FineTemp RawTemp T1 T2 T3 set_FineTemp set_Temperature].
  rewrite !int32_t_small by (unfold in_int32; lia).
  unfold Vendor.t_fine, Vendor.var1, Vendor.var2. reflexivity.
Qed.

Lemma default_Temperature (s : BMP280) :
  Temperature (CalcTemperature (DefaultCalib s))
  = Vendor.temperature (FineTemp (CalcTemperature (DefaultCalib s))).
Proof.
  rewrite default_FineTemp, default_t_fine_sum.
  rewrite <- default_temperature_fits.
  unfold CalcTemperature, DefaultCalib.
  cbn [Temperature RawTemp T1 T2 T3 set_FineTemp set_Temperature].
  rewrite !int32_t_small by (unfold in_int32; lia).
  unfold Vendor.var1, Vendor.var2. reflexivity.
Qed.

Lemma default_FineTemp_exact (s : BMP280) :
  raw_20_bit (RawTemp s) ->
  FineTemp (CalcTemperature (DefaultCalib s))
  = Vendor.exact_t_fine 27504 26435 (-1000) (RawTemp s).
Proof.
  intros H. rewrite default_FineTemp. apply default_t_fine_exact, H.
Qed.

Lemma default_FineTemp_range (s : BMP280) :
  raw_20_bit (RawTemp s) ->
  -721301 <= FineTemp (CalcTemperature (DefaultCalib s)) <= 960246.
Proof.
  intros H. rewrite (default_FineTemp_exact s H). unfold raw_20_bit in H.
  change (-721301) with (Vendor.exact_t_fine 27504 26435 (-1000) 0).
  change 960246 with (Vendor.exact_t_fine 27504 26435 (-1000) (2 ^ 20 - 1)).
  split; apply default_fine_monotone; lia.
Qed.

(** X8.  With the default calibration and raw temperatures a converter can
    deliver (0 .. 2^20 - 1), a larger raw temperature never gives a smaller
    [FineTemp] or [Temperature], and the results stay between -721301 and
    960246 for [FineTemp] and between -140.9 and 187.5 degC for
    [Temperature]. *)
Theorem default_temperature_monotone (s1 s2 : BMP280) :
  raw_20_bit (RawTemp s1) -> raw_20_bit (RawTemp s2) ->
  RawTemp s1 <= RawTemp s2 ->
  let t1 := CalcTemperature (DefaultCalib s1) in
  let t2 := CalcTemperature (DefaultCalib s2) in
  (FineTemp t1 <= FineTemp t2 /\ Temperature t1 <= Temperature t2)
  /\ (-721301 <= FineTemp t1 /\ FineTemp t2 <= 960246)
  /\ (-1409 <= Temperature t1 /\ Temperature t2 <= 1875).
Proof.
  intros H1 H2 Hle t1 t2. subst t1 t2.
  pose proof (default_FineTemp_range s1 H1) as R1.
  pose proof (default_FineTemp_range s2 H2) as R2.
  assert (F : FineTemp (CalcTemperature (DefaultCalib s1))
              <= FineTemp (CalcTemperature (DefaultCalib s2))).
  { rewrite (default_FineTemp_exact s1 H1), (default_FineTemp_exact s2 H2).
    unfold raw_20_bit in *. apply default_fine_monotone; lia. }
  rewrite !default_Temperature. unfold Vendor.temperature.
  rewrite !Z.shiftr_div_pow2 by lia. change (2 ^ 9) with 512.
  split; [split; [exact F | apply Z.div_le_mono; lia] |].
  split; [lia |]. Z.div_mod_to_equations. lia.
Qed.

Lemma default_temperature_monotone_witness :
  let s1 := set_RawTemp 519888 blank in
  let s2 := set_RawTemp 519889 (set_Pressure 4 blank) in
  Temperature (CalcTemperature (DefaultCalib s1))
  <= Temperature (CalcTemperature (DefaultCalib s2)) <= 1875.
Proof.
  intros s1 s2.
  assert (H1 : raw_20_bit (RawTemp s1)) by (unfold raw_20_bit; cbn; lia).
  assert (H2 : raw_20_bit (RawTemp s2)) by (unfold raw_20_bit; cbn; lia).
  assert (Hle : RawTemp s1 <= RawTemp s2) by (cbn; lia).
  destruct (default_temperature_monotone s1 s2 H1 H2 Hle)
    as ((_ & M) & _ & (_ & U)).
  split; [exact M | exact U].
Defined.

(** The value tested against zero, for the default calibration and a fine
    temperature the converter's range can give: no operation wraps and the
    value is some hundreds of millions. *)
Lemma default_var1_value (s : BMP280) :
  -721301 <= FineTemp s <= 960246 ->
  let t := FineTemp s - 128000 in
  CalcPressure_var1 (DefaultCalib s)
  = (2 ^ 47 + (t * t * 3024 / 2 ^ 8 + t * -10685 * 2 ^ 12)) * 36477 / 2 ^ 33
  /\ 442000000 <= CalcPressure_var1 (DefaultCalib s) <= 800000000.
Proof.
  intros Hf t.
  assert (Ht : -849301 <= t <= 832246) by (subst t; lia).
  assert (Htt : 0 <= t * t <= 721312188601) by nia.
  assert (Ha : 0 <= t * t * 3024 / 256 <= 8520500227850)
    by (Z.div_mod_to_equations; lia).
  change (2 ^ 12) with 4096. change (2 ^ 8) with 256.
  change (2 ^ 33) with 8589934592. change (2 ^ 47) with 140737488355328.
  set (v := t * t * 3024 / 256 + t * -10685 * 4096) in *.
  assert (Hv : -36423878696960 <= v <= 45690803961610) by (subst v; lia).
  assert (E : CalcPressure_var1 (DefaultCalib s)
              = (140737488355328 + v) * 36477 / 8589934592).
  { unfold CalcPressure_var1, DefaultCalib. cbv zeta.
    cbn [FineTemp P1 P2 P3].
    change (shl64 (int64_t 1) 47) with 140737488355328.
    change (int64_t 3024) with 3024. change (int64_t (-10685)) with (-10685).
    change (int64_t 36477) with 36477.
    rewrite (int64_t_small (FineTemp s)) by lia.
    unfold sub64. rewrite (int64_t_small (FineTemp s - 128000)) by lia.
    fold t. unfold mul64, add64, shl64, shr.
    rewrite (int64_t_small (t * t)) by lia.
    rewrite (int64_t_small (t * t * 3024)) by lia.
    rewrite (int64_t_small (t * -10685)) by lia.
    rewrite Z.shiftl_mul_pow2, !Z.shiftr_div_pow2 by lia.
    change (2 ^ 12) with 4096. change (2 ^ 8) with 256.
    change (2 ^ 33) with 8589934592.
    rewrite (int64_t_small (t * -10685 * 4096)) by lia.
    fold v. rewrite (int64_t_small v) by lia.
    rewrite (int64_t_small (140737488355328 + v)) by lia.
    rewrite (int64_t_small ((140737488355328 + v) * 36477)) by lia.
    reflexivity. }
  rewrite E. split; [reflexivity |].
  clearbody v. Z.div_mod_to_equations. lia.
Qed.

Lemma CalcPressure_var1_default (s : BMP280) :
  CalcPressure_var1 (CalcTemperature (DefaultCalib s))
  = CalcPressure_var1 (DefaultCalib (CalcTemperature (DefaultCalib s))).
Proof.
  unfold CalcPressure_var1. cbv zeta.
  unfold CalcTemperature, DefaultCalib. cbv zeta. members. reflexivity.
Qed.

(** X9.  With the default calibration and a raw temperature a converter
    can deliver, the value [CalcPressure] tests against zero is between
    442000000 and 800000000: the [Pressure] = 0 fallback is never taken
    after [CalcTemperature], and the one division is by that positive
    value. *)
Theorem default_pressure_divisor_positive (s : BMP280) :
  raw_20_bit (RawTemp s) ->
  let t := CalcTemperature (DefaultCalib s) in
  442000000 <= CalcPressure_var1 t <= 800000000
  /\ fst (CalcPressure t) = [CalcPressure_var1 t].
Proof.
  intros H t. subst t.
  pose proof (default_FineTemp_range s H) as R.
  destruct (default_var1_value (CalcTemperature (DefaultCalib s)) R)
    as [_ B].
  rewrite <- CalcPressure_var1_default in B. split; [exact B |].
  rewrite CalcPressure_nonzero by lia. reflexivity.
Qed.

Lemma default_pressure_divisor_positive_witness :
  let s := set_RawPress 415148 (set_RawTemp 519888 blank) in
  fst (CalcPressure (CalcTemperature (DefaultCalib s))) = [597560748].
Proof.
  intros s.
  assert (H : raw_20_bit (RawTemp s)) by (unfold raw_20_bit; cbn; lia).
  destruct (default_pressure_divisor_positive s H) as [_ F].
  rewrite F. vm_compute. reflexivity.
Defined.

(** ** The pressure formula without wrap *)

Lemma CalcPressure_nonzero_value (s : BMP280) :
  CalcPressure_var1 s <> 0 -> CalcPressure_var1 s <> -1 ->
  CalcPressure s
  = ([CalcPressure_var1 s],
     Some (CalcPressure_tail s
             (int64_t
                (Z.quot
                   (mul64 (sub64 (shl64 (int64_t (sub32 1048576 (RawPress s)))
                                        31)
                                 (CalcPressure_var2 s)) 3125)
                   (CalcPressure_var1 s))))).
Proof.
  intros H0 H1. rewrite (CalcPressure_nonzero s H0).
  rewrite div64_defined by (try assumption; intros [_ E]; contradiction).
  reflexivity.
Qed.

Lemma sq_bound (m M : Z) : - M <= m <= M -> 0 <= m * m <= M * M.
Proof. intros H. nia. Qed.

Lemma quot_bounds (a b L A : Z) :
  0 < L <= b -> - A <= a <= A -> - (A / L) <= Z.quot a b <= A / L.
Proof.
  intros HL HA.
  assert (N : forall x, 0 <= x <= A -> 0 <= Z.quot x b <= A / L).
  { intros x Hx. rewrite Z.quot_div_nonneg by lia. split.
    - apply Z.div_pos; lia.
    - etransitivity; [apply Z.div_le_compat_l; [lia | exact HL] |].
      apply Z.div_le_mono; lia. }
  destruct (Z_le_gt_dec 0 a) as [Hp | Hn].
  - specialize (N a ltac:(lia)). lia.
  - specialize (N (- a) ltac:(lia)).
    rewrite Z.quot_opp_l in N by lia. lia.
Qed.

Lemma default_var2_value (s : BMP280) :
  -721301 <= FineTemp s <= 960246 ->
  let t := FineTemp s - 128000 in
  CalcPressure_var2 (DefaultCalib s)
  = t * t * -7 + t * 140 * 2 ^ 17 + 2855 * 2 ^ 35
  /\ 77463126426353 <= CalcPressure_var2 (DefaultCalib s)
     <= 113368833720320.
Proof.
  intros Hf t.
  assert (Ht : -849301 <= t <= 832246) by (subst t; lia).
  assert (Htt : 0 <= t * t <= 721312188601) by nia.
  assert (E : CalcPressure_var2 (DefaultCalib s)
              = t * t * -7 + t * 140 * 2 ^ 17 + 2855 * 2 ^ 35).
  { unfold CalcPressure_var2, DefaultCalib. cbv zeta.
    cbn [FineTemp P4 P5 P6].
    change (shl64 (int64_t 2855) 35) with (2855 * 2 ^ 35).
    change (int64_t (-7)) with (-7). change (int64_t 140) with 140.
    rewrite (int64_t_small (FineTemp s)) by lia.
    unfold sub64. rewrite (int64_t_small (FineTemp s - 128000)) by lia.
    fold t. unfold mul64, add64, shl64.
    rewrite (int64_t_small (t * t)) by lia.
    rewrite (int64_t_small (t * t * -7)) by lia.
    rewrite (int64_t_small (t * 140)) by lia.
    rewrite Z.shiftl_mul_pow2 by lia.
    rewrite (int64_t_small (t * 140 * 2 ^ 17)) by lia.
    rewrite (int64_t_small (t * t * -7 + t * 140 * 2 ^ 17)) by lia.
    rewrite int64_t_small by lia. reflexivity. }
  rewrite E. split; [reflexivity | lia].
Qed.

Lemma default_tail_value (s : BMP280) (p : Z) :
  -15372855537 <= p <= 15372855537 ->
  CalcPressure_tail (DefaultCalib s) p
  = set_Pressure
      (uint32_t (((p + 6000 * (p / 2 ^ 13) * (p / 2 ^ 13) / 2 ^ 25
                   + -14600 * p / 2 ^ 19) / 2 ^ 8 + 15500 * 2 ^ 4 + 32)
                 / 2 ^ 6))
      (DefaultCalib s).
Proof.
  intros Hp. unfold CalcPressure_tail. cbv zeta. f_equal. f_equal.
  cbn [DefaultCalib P7 P8 P9].
  change (shl64 (int64_t 15500) 4) with (15500 * 2 ^ 4).
  change (int64_t 6000) with 6000. change (int64_t (-14600)) with (-14600).
  unfold shr. rewrite !Z.shiftr_div_pow2 by lia.
  assert (H13 : -1876570 <= p / 2 ^ 13 <= 1876570)
    by (change (2 ^ 13) with 8192; Z.div_mod_to_equations; lia).
  set (m := p / 2 ^ 13) in *.
  pose proof (sq_bound m 1876570 H13) as Hmm.
  unfold mul64, add64.
  rewrite (int64_t_small (6000 * m)) by lia.
  rewrite (int64_t_small (6000 * m * m)) by nia.
  rewrite (int64_t_small (-14600 * p)) by lia.
  assert (Hv1 : 0 <= 6000 * m * m / 2 ^ 25 <= 630000000)
    by (change (2 ^ 25) with 33554432;
        assert (0 <= 6000 * m * m <= 21130000000000000) by nia;
        Z.div_mod_to_equations; lia).
  assert (Hv2 : -430000000 <= -14600 * p / 2 ^ 19 <= 430000000)
    by (change (2 ^ 19) with 524288; Z.div_mod_to_equations; lia).
  set (v1 := 6000 * m * m / 2 ^ 25) in *.
  set (v2 := -14600 * p / 2 ^ 19) in *.
  rewrite (int64_t_small (p + v1)) by lia.
  rewrite (int64_t_small (p + v1 + v2)) by lia.
  assert (H8 : -65000000 <= (p + v1 + v2) / 2 ^ 8 <= 65000000)
    by (change (2 ^ 8) with 256; Z.div_mod_to_equations; lia).
  rewrite (int64_t_small ((p + v1 + v2) / 2 ^ 8 + 15500 * 2 ^ 4)) by lia.
  rewrite int64_t_small by lia. reflexivity.
Qed.

(** [CalcPressure] on the default calibration, for a fine temperature and a
    raw pressure within the converter's range: no 64-bit operation wraps. *)
Lemma default_pressure_value (s : BMP280) :
  -721301 <= FineTemp s <= 960246 -> raw_20_bit (RawPress s) ->
  CalcPressure (DefaultCalib s)
  = ([CalcPressure_var1 (DefaultCalib s)],
     Some (set_Pressure (uint32_t (exact_pressure (DefaultCalib s)))
                        (DefaultCalib s))).
Proof.
  intros Hf Hr. unfold raw_20_bit in Hr.
  destruct (default_var1_value s Hf) as [E1 B1].
  destruct (default_var2_value s Hf) as [E2 B2].
  cbv zeta in E1, E2.
  rewrite CalcPressure_nonzero_value by lia. f_equal. f_equal.
  unfold exact_pressure. cbv zeta.
  cbn [DefaultCalib FineTemp RawPress P1 P2 P3 P4 P5 P6 P7 P8 P9].
  rewrite <- E1, <- E2.
  set (v1 := CalcPressure_var1 (DefaultCalib s)) in *.
  set (v2 := CalcPressure_var2 (DefaultCalib s)) in *.
  clearbody v1 v2.
  unfold sub32. rewrite (int32_t_small (1048576 - RawPress s))
    by (unfold in_int32; lia).
  rewrite (int64_t_small (1048576 - RawPress s)) by lia.
  unfold shl64. rewrite Z.shiftl_mul_pow2 by lia.
  change (2 ^ 31) with 2147483648 in *.
  rewrite (int64_t_small ((1048576 - RawPress s) * 2147483648)) by lia.
  unfold sub64, mul64.
  rewrite (int64_t_small ((1048576 - RawPress s) * 2147483648 - v2)) by lia.
  set (d := (1048576 - RawPress s) * 2147483648 - v2) in *.
  assert (Hd : -113366686236672 <= d <= 2174336687258895) by (subst d; lia).
  rewrite (int64_t_small (d * 3125)) by lia.
  pose proof (quot_bounds (d * 3125) v1 442000000 6794802147684046875
                ltac:(lia) ltac:(lia)) as Hq.
  change (6794802147684046875 / 442000000) with 15372855537 in Hq.
  rewrite (int64_t_small (Z.quot (d * 3125) v1)) by lia.
  apply default_tail_value. lia.
Qed.

Lemma default_exact_pressure_range (s : BMP280) :
  -721301 <= FineTemp s <= 960246 -> 0 <= RawPress s <= 990000 ->
  3875 <= exact_pressure (DefaultCalib s) <= 980612.
Proof.
  intros Hf Hr.
  destruct (default_var1_value s Hf) as [E1 B1].
  destruct (default_var2_value s Hf) as [E2 B2].
  cbv zeta in E1, E2.
  unfold exact_pressure. cbv zeta.
  cbn [DefaultCalib FineTemp RawPress P1 P2 P3 P4 P5 P6 P7 P8 P9].
  rewrite <- E1, <- E2.
  set (v1 := CalcPressure_var1 (DefaultCalib s)) in *.
  set (v2 := CalcPressure_var2 (DefaultCalib s)) in *.
  clearbody v1 v2. change (2 ^ 31) with 2147483648.
  set (d := (1048576 - RawPress s) * 2147483648 - v2).
  assert (Hd : 0 <= d <= 2174336687258895) by (subst d; lia).
  pose proof (quot_bounds (d * 3125) v1 442000000 6794802147684046875
                ltac:(lia) ltac:(lia)) as Hq.
  change (6794802147684046875 / 442000000) with 15372855537 in Hq.
  pose proof (Z.quot_pos (d * 3125) v1 ltac:(lia) ltac:(lia)) as Hq0.
  set (p := Z.quot (d * 3125) v1) in *. clearbody p.
  assert (H13 : 0 <= p / 2 ^ 13 <= 1876570)
    by (change (2 ^ 13) with 8192; Z.div_mod_to_equations; lia).
  set (m := p / 2 ^ 13) in *.
  assert (Hw1 : 0 <= 6000 * m * m / 2 ^ 25 <= 630000000)
    by (change (2 ^ 25) with 33554432;
        assert (0 <= 6000 * m * m <= 21130000000000000) by nia;
        Z.div_mod_to_equations; lia).
  assert (Hw2 : - p <= -14600 * p / 2 ^ 19 <= 0)
    by (change (2 ^ 19) with 524288; Z.div_mod_to_equations; lia).
  set (w1 := 6000 * m * m / 2 ^ 25) in *.
  set (w2 := -14600 * p / 2 ^ 19) in *. clearbody w1 w2.
  change (2 ^ 8) with 256. change (2 ^ 4) with 16. change (2 ^ 6) with 64.
  Z.div_mod_to_equations. lia.
Qed.

Lemma DefaultCalib_CalcTemperature (s : BMP280) :
  DefaultCalib (CalcTemperature (DefaultCalib s))
  = CalcTemperature (DefaultCalib s).
Proof.
  unfold CalcTemperature, DefaultCalib. cbv zeta.
  unfold set_Temperature, set_FineTemp. members. reflexivity.
Qed.

(** X10.  With the default calibration and raw samples a converter can
    deliver (both within 0 .. 2^20 - 1), a reading cycle completes without
    any 32-bit or 64-bit operation wrapping around: [Pressure] is the
    pressure formula evaluated over the integers, reduced to the 32-bit
    member.  For a raw pressure of at most 990000 that reduction changes
    nothing and [Pressure] is between 3875 and 980612 (in 0.25 Pa). *)
Theorem default_pressure_exact (s : BMP280) :
  raw_20_bit (RawTemp s) -> raw_20_bit (RawPress s) ->
  let t := CalcTemperature (DefaultCalib s) in
  Compensate (DefaultCalib s)
  = Some (set_Pressure (uint32_t (exact_pressure t)) t)
  /\ (RawPress s <= 990000 ->
      Compensate (DefaultCalib s) = Some (set_Pressure (exact_pressure t) t)
      /\ 3875 <= exact_pressure t <= 980612).
Proof.
  intros Ht Hp t. subst t.
  pose proof (default_FineTemp_range s Ht) as Rf.
  set (t := CalcTemperature (DefaultCalib s)) in *.
  assert (Rp : raw_20_bit (RawPress t)) by exact Hp.
  assert (Dt : DefaultCalib t = t) by apply DefaultCalib_CalcTemperature.
  assert (C : Compensate (DefaultCalib s)
              = Some (set_Pressure (uint32_t (exact_pressure t)) t)).
  { unfold Compensate. fold t. rewrite <- Dt at 1.
    rewrite (default_pressure_value t Rf Rp), Dt. reflexivity. }
  split; [exact C |]. intros Hle.
  assert (R : 3875 <= exact_pressure t <= 980612).
  { rewrite <- Dt. apply default_exact_pressure_range; [exact Rf |].
    unfold raw_20_bit in Hp. change (RawPress t) with (RawPress s). lia. }
  split; [| exact R]. rewrite C.
  unfold uint32_t, wrap_unsigned. rewrite Z.mod_small by lia. reflexivity.
Qed.

(** The vendor's example: 100653.25 Pa. *)
Lemma default_pressure_exact_witness :
  let s := set_RawPress 415148 (set_RawTemp 519888 blank) in
  let t := CalcTemperature (DefaultCalib s) in
  Compensate (DefaultCalib s) = Some (set_Pressure 402613 t)
  /\ exact_pressure t = 402613.
Proof.
  intros s t.
  assert (H1 : raw_20_bit (RawTemp s)) by (unfold raw_20_bit; cbn; lia).
  assert (H2 : raw_20_bit (RawPress s)) by (unfold raw_20_bit; cbn; lia).
  assert (H3 : RawPress s <= 990000) by (cbn; lia).
  destruct (default_pressure_exact s H1 H2) as [_ F].
  destruct (F H3) as [E _].
  assert (V : exact_pressure t = 402613) by (vm_compute; reflexivity).
  split; [| exact V]. rewrite E. fold t. rewrite V. reflexivity.
Defined.

(** ** Temperature for any calibration *)

(** X11.  Whatever the calibration and the raw temperature, the sum
    [var1 + var2] of [CalcTemperature] stays within 21 bits, so neither the
    addition of 256 nor the conversion to the 16-bit member changes a value:
    [Temperature] is always [(FineTemp + 256) >> 9], and it lies between
    -230.4 and 230.4 degC. *)
Theorem CalcTemperature_output_bounds (s : BMP280) :
  let t := CalcTemperature s in
  - 2 ^ 20 - 2 ^ 17 <= FineTemp t < 2 ^ 20 + 2 ^ 17
  /\ Temperature t = Z.shiftr (FineTemp t + 256) 9
  /\ -2304 <= Temperature t <= 2304.
Proof.
  intros t. subst t. unfold CalcTemperature. cbv zeta.
  cbn [FineTemp Temperature set_FineTemp set_Temperature].
  set (m1 := mul32 (sub32 (shr (RawTemp s) 3) (shl32 (int32_t (T1 s)) 1))
                   (int32_t (T2 s))).
  set (m2 := mul32 (shr (mul32 (sub32 (shr (RawTemp s) 4) (int32_t (T1 s)))
                               (sub32 (shr (RawTemp s) 4) (int32_t (T1 s))))
                        12) (int32_t (T3 s))).
  assert (H1 : in_int32 m1) by apply int32_t_range.
  assert (H2 : in_int32 m2) by apply int32_t_range.
  unfold in_int32 in H1, H2. clearbody m1 m2.
  assert (B1 : - 2 ^ 20 <= shr m1 11 < 2 ^ 20)
    by (rewrite shr_div by lia; change (2 ^ 11) with 2048;
        Z.div_mod_to_equations; lia).
  assert (B2 : - 2 ^ 17 <= shr m2 14 < 2 ^ 17)
    by (rewrite shr_div by lia; change (2 ^ 14) with 16384;
        Z.div_mod_to_equations; lia).
  set (v1 := shr m1 11) in *. set (v2 := shr m2 14) in *. clearbody v1 v2.
  unfold add32. rewrite (int32_t_small (v1 + v2)) by (unfold in_int32; lia).
  rewrite (int32_t_small (v1 + v2 + 256)) by (unfold in_int32; lia).
  assert (B : -2304 <= shr (v1 + v2 + 256) 9 <= 2304)
    by (rewrite shr_div by lia; change (2 ^ 9) with 512;
        Z.div_mod_to_equations; lia).
  rewrite int16_t_small by lia.
  split; [lia |]. split; [reflexivity | exact B].
Qed.

(** ** Reading both raw samples *)

Lemma ReadRawTemp_env (s : BMP280) (w : world) :
  env (ReadRawTemp (s, w))
  = mkWorld (script w) (S (served w)) (trace w ++ [Read ADDR REG_TEMP 3]).
Proof.
  unfold ReadRawTemp. run_method. destruct (negb _); reflexivity.
Qed.

Lemma ReadRawPress_env (s : BMP280) (w : world) :
  env (ReadRawPress (s, w))
  = mkWorld (script w) (S (served w)) (trace w ++ [Read ADDR REG_PRESS 3]).
Proof.
  unfold ReadRawPress. run_method. destruct (negb _); reflexivity.
Qed.

Lemma ReadRawPress_keeps_RawTemp (s : BMP280) (w : world) :
  RawTemp (obj (ReadRawPress (s, w))) = RawTemp s.
Proof.
  unfold ReadRawPress. run_method. destruct (negb _); reflexivity.
Qed.

Lemma ReadRawPress_Error (s : BMP280) (w : world) :
  Error (obj (ReadRawPress (s, w))) = byte_val (err (next_reply w)).
Proof.
  unfold ReadRawPress. run_method. destruct (negb _); reflexivity.
Qed.

(** X12.  Reading the temperature and then the pressure, with both bursts
    arriving: each call returns 0, [Error] ends as 0, the bus sees the
    3-byte read of the temperature register and then that of the pressure
    register, the second read leaves the first sample in place, and both
    samples are the decoded bursts, within the 20 bits of the converter. *)
Theorem raw_reads_in_sequence
  (s : BMP280) (w : world) (t0 t1 t2 p0 p1 p2 : byte) :
  next_reply w = ok [t0; t1; t2] ->
  script w (S (served w)) = ok [p0; p1; p2] ->
  let rt := ReadRawTemp (s, w) in
  let rp := ReadRawPress (obj rt, env rt) in
  (ret rt = 0 /\ ret rp = 0 /\ Error (obj rp) = 0)
  /\ trace (env rp)
     = trace w ++ [Read ADDR REG_TEMP 3; Read ADDR REG_PRESS 3]
  /\ (RawTemp (obj rp)
      = Vendor.decode (byte_val t0) (byte_val t1) (byte_val t2)
      /\ RawPress (obj rp)
         = Vendor.decode (byte_val p0) (byte_val p1) (byte_val p2))
  /\ (raw_20_bit (RawTemp (obj rp)) /\ raw_20_bit (RawPress (obj rp))).
Proof.
  intros Ht Hp rt rp. subst rp rt.
  destruct (ReadRawTemp_ok s w t0 t1 t2 Ht) as (T0 & T1 & T2).
  set (s1 := obj (ReadRawTemp (s, w))) in *.
  rewrite ReadRawTemp_env.
  set (w1 := mkWorld (script w) (S (served w))
                     (trace w ++ [Read ADDR REG_TEMP 3])).
  assert (Hn : next_reply w1 = ok [p0; p1; p2]) by exact Hp.
  destruct (ReadRawPress_ok s1 w1 p0 p1 p2 Hn) as (P0 & P1 & P2).
  rewrite ReadRawPress_keeps_RawTemp, ReadRawPress_Error, ReadRawPress_env.
  rewrite Hn. cbn [w1 trace err ok]. rewrite <- app_assoc. cbn [app].
  split; [repeat split; assumption |]. split; [reflexivity |].
  split; [split; assumption |].
  pose proof (byte_val_range t0). pose proof (byte_val_range t1).
  pose proof (byte_val_range t2). pose proof (byte_val_range p0).
  pose proof (byte_val_range p1). pose proof (byte_val_range p2).
  rewrite T2, P2. unfold raw_20_bit.
  split; Z.div_mod_to_equations; lia.
Qed.

Lemma raw_reads_in_sequence_witness :
  let w := boot (fun n => match n with
                          | O => ok [x7e; xed; x00]
                          | _ => ok [x65; x5a; xc0]
                          end) in
  let rt := ReadRawTemp (blank, w) in
  let rp := ReadRawPress (obj rt, env rt) in
  RawTemp (obj rp) = 519888 /\ RawPress (obj rp) = 415148.
Proof.
  intros w rt rp.
  destruct (raw_reads_in_sequence blank w x7e xed x00 x65 x5a xc0
              eq_refl eq_refl) as (_ & _ & (T & P) & _).
  fold rt rp in T, P. rewrite T, P. split; vm_compute; reflexivity.
Defined.
